(** * aws/s3/core.go: request signing and request construction

    A shallow embedding of package [s3] (file [aws/s3/core.go]) together
    with the parts of the Go standard library the file calls into:
    [crypto/sha1], [crypto/hmac], [encoding/base64], [time] (layout
    RFC1123Z), [net/url] (escaping, parsing of the S3 endpoint URLs,
    printing; as of Go 1.5 and later, where a URL keeps the raw form of
    its path), [fmt] ([%d]) and the [string(int)] conversion.  The clock,
    the HTTP transport, the MIME table and the XML decoder are parameters.

    Go strings are byte strings: they are modelled by [string] (one
    [ascii] per byte), byte slices by [list Z] with every element in
    [0, 256).  Go functions that return [(value, error)] return a pair
    whose second component is [option error], [None] standing for [nil]. *)

From Stdlib Require Import ZArith List Ascii String DecimalString Lia Bool.
From stdpp Require Import base option strings gmap list sorting.

Local Open Scope Z_scope.

(** ** Byte strings *)

Module bytes.

Definition of_ascii (c : ascii) : Z := Z.of_N (N_of_ascii c).
Definition to_ascii (b : Z) : ascii := ascii_of_N (Z.to_N b).

(** [[]byte(s)] *)
Definition of_string (s : string) : list Z :=
  map of_ascii (list_ascii_of_string s).

(** [string(b)] for a byte slice [b] *)
Definition to_string (b : list Z) : string :=
  string_of_list_ascii (map to_ascii b).

End bytes.

(** ** crypto/sha1 *)

Module sha1.

Definition w32 (x : Z) : Z := x mod 2 ^ 32.
Definition add32 (x y : Z) : Z := w32 (x + y).
Definition not32 (x : Z) : Z := Z.lxor x 0xFFFFFFFF.
Definition rotl32 (n x : Z) : Z :=
  Z.lor (w32 (Z.shiftl x n)) (Z.shiftr x (32 - n)).

(** big-endian encoding of [x] on [n] bytes *)
Fixpoint be_bytes (n : nat) (x : Z) : list Z :=
  match n with
  | O => []
  | S m => Z.shiftr x (8 * Z.of_nat m) mod 256 :: be_bytes m x
  end.

(** the message followed by 0x80, zeros up to 56 mod 64, and the bit
    length on eight bytes *)
Definition pad (msg : list Z) : list Z :=
  let len := Z.of_nat (length msg) in
  let zeros := Z.to_nat ((55 - len) mod 64) in
  msg ++ 0x80 :: repeat 0 zeros ++ be_bytes 8 (8 * len).

Fixpoint words (b : list Z) : list Z :=
  match b with
  | b0 :: b1 :: b2 :: b3 :: r =>
      Z.lor (Z.lor (Z.shiftl b0 24) (Z.shiftl b1 16))
            (Z.lor (Z.shiftl b2 8) b3) :: words r
  | _ => []
  end.

(** The message schedule, most recent word first: [w] holds
    [w[i-1], w[i-2], ...]. *)
Definition next_word (w : list Z) : Z :=
  rotl32 1 (Z.lxor (Z.lxor (nth 2 w 0) (nth 7 w 0))
                   (Z.lxor (nth 13 w 0) (nth 15 w 0))).

Fixpoint extend (n : nat) (w : list Z) : list Z :=
  match n with
  | O => w
  | S m => extend m (next_word w :: w)
  end.

Definition schedule (block : list Z) : list Z :=
  rev (extend 64 (rev (words block))).

Record digest := Digest { h0 : Z; h1 : Z; h2 : Z; h3 : Z; h4 : Z }.

Definition init : digest :=
  Digest 0x67452301 0xEFCDAB89 0x98BADCFE 0x10325476 0xC3D2E1F0.

Definition round (i : nat) (d : digest) (wi : Z) : digest :=
  let '(Digest a b c d e) := d in
  let '(f, k) :=
    if (i <? 20)%nat then
      (Z.lor (Z.land b c) (Z.land (not32 b) d), 0x5A827999)
    else if (i <? 40)%nat then
      (Z.lxor (Z.lxor b c) d, 0x6ED9EBA1)
    else if (i <? 60)%nat then
      (Z.lor (Z.lor (Z.land b c) (Z.land b d)) (Z.land c d), 0x8F1BBCDC)
    else
      (Z.lxor (Z.lxor b c) d, 0xCA62C1D6) in
  let t := add32 (add32 (add32 (add32 (rotl32 5 a) f) e) wi) k in
  Digest t a (rotl32 30 b) c d.

Fixpoint rounds (i : nat) (d : digest) (w : list Z) : digest :=
  match w with
  | [] => d
  | wi :: w' => rounds (S i) (round i d wi) w'
  end.

Definition block (d : digest) (b : list Z) : digest :=
  let r := rounds 0 d (schedule b) in
  Digest (add32 (h0 d) (h0 r)) (add32 (h1 d) (h1 r)) (add32 (h2 d) (h2 r))
         (add32 (h3 d) (h3 r)) (add32 (h4 d) (h4 r)).

(** Consume the padded message 64 bytes at a time; [n] bounds the number
    of blocks. *)
Fixpoint blocks (n : nat) (d : digest) (p : list Z) : digest :=
  match n with
  | O => d
  | S m =>
      match p with
      | [] => d
      | _ => blocks m (block d (firstn 64 p)) (skipn 64 p)
      end
  end.

(** [sha1.Sum] *)
Definition Sum (msg : list Z) : list Z :=
  let p := pad msg in
  let d := blocks (length p) init p in
  be_bytes 4 (h0 d) ++ be_bytes 4 (h1 d) ++ be_bytes 4 (h2 d)
    ++ be_bytes 4 (h3 d) ++ be_bytes 4 (h4 d).

End sha1.

(** ** crypto/hmac, instantiated with [sha1.New] *)

Module hmac.

(** The state of the [hash.Hash] returned by [hmac.New(sha1.New, key)]:
    the two padded keys and the bytes written so far. *)
Record state := State { opad : list Z; ipad : list Z; inner : list Z }.

Definition pad_key (key : list Z) : list Z :=
  let k := if (64 <? Z.of_nat (length key)) then sha1.Sum key else key in
  k ++ repeat 0 (64 - length k)%nat.

Definition New (key : list Z) : state :=
  let k := pad_key key in
  State (map (Z.lxor 0x5c) k) (map (Z.lxor 0x36) k) [].

(** [h.Write(p)]: absorbs [p]; by the [hash.Hash] contract it reports
    [len(p)] and never an error. *)
Definition Write {E : Type} (h : state) (p : list Z)
  : state * (Z * option E) :=
  (State (opad h) (ipad h) (inner h ++ p), (Z.of_nat (length p), None)).

(** [h.Sum(in)] *)
Definition Sum (h : state) (b : list Z) : list Z :=
  b ++ sha1.Sum (opad h ++ sha1.Sum (ipad h ++ inner h)).

(** HMAC-SHA1 of a message under a key, in one step *)
Definition hmac_sha1 (key msg : list Z) : list Z :=
  let k := pad_key key in
  sha1.Sum (map (Z.lxor 0x5c) k ++ sha1.Sum (map (Z.lxor 0x36) k ++ msg)).

End hmac.

(** ** encoding/base64, [StdEncoding] *)

Module base64.

Definition encodeStd : string :=
  "ABCDEFGHIJKLMNOPQRSTUVWXYZabcdefghijklmnopqrstuvwxyz0123456789+/".

Definition enc (i : Z) : Z :=
  match String.get (Z.to_nat i) encodeStd with
  | Some c => bytes.of_ascii c
  | None => 0
  end.

Definition padChar : Z := bytes.of_ascii "=".

(** [enc.Encode(dst, src)] for [StdEncoding]: three bytes give four
    characters, a remainder of one or two bytes is padded with [=]. *)
Fixpoint Encode (src : list Z) : list Z :=
  match src with
  | [] => []
  | [a] =>
      [enc (Z.shiftr a 2); enc (Z.land (Z.shiftl a 4) 0x3F); padChar; padChar]
  | [a; b] =>
      [enc (Z.shiftr a 2);
       enc (Z.land (Z.lor (Z.shiftl a 4) (Z.shiftr b 4)) 0x3F);
       enc (Z.land (Z.shiftl b 2) 0x3F); padChar]
  | a :: b :: c :: r =>
      enc (Z.shiftr a 2)
      :: enc (Z.land (Z.lor (Z.shiftl a 4) (Z.shiftr b 4)) 0x3F)
      :: enc (Z.land (Z.lor (Z.shiftl b 2) (Z.shiftr c 6)) 0x3F)
      :: enc (Z.land c 0x3F) :: Encode r
  end.

(** [StdEncoding.EncodeToString] *)
Definition EncodeToString (src : list Z) : string :=
  bytes.to_string (Encode src).

End base64.

(** ** bytes.Buffer and the streaming base64 encoder *)

Module buffer.

(** [bytes.Buffer.Write]: appends; its error result is always [nil]. *)
Definition Write {E : Type} (b p : list Z) : list Z * (Z * option E) :=
  (b ++ p, (Z.of_nat (length p), None)).

End buffer.

Module encoder.

(** The state behind [base64.NewEncoder(base64.StdEncoding, buf)]: the
    sticky error, the bytes not yet encoded (fewer than three) and the
    contents of the [bytes.Buffer] the encoder writes to.  In [sign] the
    buffer is reachable both as [buf] and through the encoder; the model
    keeps the single copy here and [sign] reads it back from [w]. *)
Record t (E : Type) := Enc { err : option E; buf : list Z; w : list Z }.
Arguments Enc {E}.
Arguments err {E}.
Arguments buf {E}.
Arguments w {E}.

Definition New {E : Type} (b : list Z) : t E := Enc None [] b.

(** [encoder.Write]: completes the pending group first, then encodes every
    whole group of three bytes (the library does so 768 bytes at a time)
    and keeps the remainder pending. *)
Definition Write {E : Type} (e : t E) (p : list Z) : t E * (Z * option E) :=
  match err e with
  | Some x => (e, (0, Some x))
  | None =>
      let i := if (0 <? length (buf e))%nat
               then Nat.min (length p) (3 - length (buf e)) else O in
      let b := buf e ++ firstn i p in
      let p := skipn i p in
      if ((0 <? length (buf e)) && (length b <? 3))%nat then
        (Enc None b (w e), (Z.of_nat i, None))
      else
        let '(w1, (_, e1)) :=
          if (0 <? length (buf e))%nat
          then buffer.Write (w e) (base64.Encode b)
          else (w e, (0, None)) in
        match e1 with
        | Some x => (Enc (Some x) [] w1, (Z.of_nat i, Some x))
        | None =>
            let nn := (length p - length p mod 3)%nat in
            let '(w2, (_, e2)) :=
              buffer.Write w1 (base64.Encode (firstn nn p)) in
            match e2 with
            | Some x => (Enc (Some x) [] w2, (Z.of_nat i, Some x))
            | None =>
                (Enc None (skipn nn p) w2,
                 (Z.of_nat (i + length p), None))
            end
        end
  end.

(** [encoder.Close]: flushes the pending bytes with padding. *)
Definition Close {E : Type} (e : t E) : t E * option E :=
  match err e, buf e with
  | None, _ :: _ =>
      let '(w1, (_, e1)) := buffer.Write (w e) (base64.Encode (buf e)) in
      (Enc e1 [] w1, e1)
  | x, _ => (e, x)
  end.

End encoder.

(** ** fmt and conversions *)

Module fmt.

(** [fmt.Sprintf("%d", n)] *)
Definition Sprintf_d (n : Z) : string := NilZero.string_of_int (Z.to_int n).

End fmt.

Module utf8.

Definition RuneError : list Z := [0xEF; 0xBF; 0xBD].

(** The conversion [string(n)] of an integer: the UTF-8 encoding of the
    code point [n], or of U+FFFD when [n] is not a valid code point. *)
Definition string_of_int (n : Z) : string :=
  bytes.to_string
    (if (n <? 0) || (0x10FFFF <? n) || ((0xD800 <=? n) && (n <=? 0xDFFF))
     then RuneError
     else if n <? 0x80 then [n]
     else if n <? 0x800 then
       [Z.lor 0xC0 (Z.shiftr n 6); Z.lor 0x80 (Z.land n 0x3F)]
     else if n <? 0x10000 then
       [Z.lor 0xE0 (Z.shiftr n 12);
        Z.lor 0x80 (Z.land (Z.shiftr n 6) 0x3F);
        Z.lor 0x80 (Z.land n 0x3F)]
     else
       [Z.lor 0xF0 (Z.shiftr n 18);
        Z.lor 0x80 (Z.land (Z.shiftr n 12) 0x3F);
        Z.lor 0x80 (Z.land (Z.shiftr n 6) 0x3F);
        Z.lor 0x80 (Z.land n 0x3F)]).

End utf8.

(** ** time: instants and the layout RFC1123Z *)

Module time.

(** An instant: seconds since the Unix epoch, nanoseconds within the
    second, and the offset east of UTC (in seconds) of its location. *)
Record Time := mkTime { unix : Z; nsec : Z; offset : Z }.

(** [t.UTC()] *)
Definition UTC (t : Time) : Time := mkTime (unix t) (nsec t) 0.

(** Proleptic Gregorian date [(year, month, day)] of a day number counted
    from 1970-01-01. *)
Definition civil (days : Z) : Z * Z * Z :=
  let z := days + 719468 in
  let era := z / 146097 in
  let doe := z - era * 146097 in
  let yoe := (doe - doe / 1460 + doe / 36524 - doe / 146096) / 365 in
  let doy := doe - (365 * yoe + yoe / 4 - yoe / 100) in
  let mp := (5 * doy + 2) / 153 in
  let d := doy - (153 * mp + 2) / 5 + 1 in
  let m := if mp <? 10 then mp + 3 else mp - 9 in
  let y := yoe + era * 400 + (if m <=? 2 then 1 else 0) in
  (y, m, d).

Definition shortDayNames : list string :=
  ["Sun"; "Mon"; "Tue"; "Wed"; "Thu"; "Fri"; "Sat"].

Definition shortMonthNames : list string :=
  ["Jan"; "Feb"; "Mar"; "Apr"; "May"; "Jun";
   "Jul"; "Aug"; "Sep"; "Oct"; "Nov"; "Dec"].

(** [appendInt]: a sign for negative numbers, then the decimal digits
    padded with zeros on the left to [width]. *)
Definition appendInt (x : Z) (width : nat) : string :=
  let ds := NilZero.string_of_uint (N.to_uint (Z.to_N (Z.abs x))) in
  (if x <? 0 then "-" else "")
    +:+ string_of_list_ascii (repeat "0"%char (width - String.length ds))
    +:+ ds.

(** [t.Format(time.RFC1123Z)], layout ["Mon, 02 Jan 2006 15:04:05 -0700"] *)
Definition Format_RFC1123Z (t : Time) : string :=
  let s := unix t + offset t in
  let days := s / 86400 in
  let sod := s mod 86400 in
  let '(y, m, d) := civil days in
  let zone := offset t / 60 in
  nth (Z.to_nat ((days + 4) mod 7)) shortDayNames "" +:+ ", "
    +:+ appendInt d 2 +:+ " "
    +:+ nth (Z.to_nat (m - 1)) shortMonthNames "" +:+ " "
    +:+ appendInt y 4 +:+ " "
    +:+ appendInt (sod / 3600) 2 +:+ ":"
    +:+ appendInt (sod mod 3600 / 60) 2 +:+ ":"
    +:+ appendInt (sod mod 60) 2 +:+ " "
    +:+ (if zone <? 0 then "-" else "+")
    +:+ appendInt (Z.abs zone / 60) 2 +:+ appendInt (Z.abs zone mod 60) 2.

End time.

(** ** Errors *)

(** The error values the program can see. *)
Inductive error : Type :=
  | errorString (msg : string)              (* [errors.New(msg)] *)
  | EscapeError (s : string)                (* [url.EscapeError] *)
  | invalidControlCharacter                 (* [net/url]: control byte *)
  | urlError (op url : string) (e : error)  (* [*url.Error] *)
  | external (tag : string).                (* made by the environment *)

Definition errors_New (msg : string) : error := errorString msg.

(** ** strings *)

Module strings.

Fixpoint mem (c : ascii) (s : string) : bool :=
  match s with
  | EmptyString => false
  | String d r => Ascii.eqb c d || mem c r
  end.

(** [strings.Count(s, string(c))] *)
Fixpoint Count (c : ascii) (s : string) : nat :=
  match s with
  | EmptyString => O
  | String d r => ((if Ascii.eqb c d then 1 else 0) + Count c r)%nat
  end.

(** [strings.Cut(s, string(c))], without the found flag *)
Fixpoint Cut (c : ascii) (s : string) : string * string :=
  match s with
  | EmptyString => (EmptyString, EmptyString)
  | String d r =>
      if Ascii.eqb c d then (EmptyString, r)
      else let '(a, b) := Cut c r in (String d a, b)
  end.

(** [strings.HasSuffix(s, string(c))] *)
Fixpoint HasSuffix (c : ascii) (s : string) : bool :=
  match s with
  | EmptyString => false
  | String d EmptyString => Ascii.eqb c d
  | String _ r => HasSuffix c r
  end.

(** [s[:len(s)-1]] *)
Fixpoint drop_last (s : string) : string :=
  match s with
  | EmptyString => EmptyString
  | String _ EmptyString => EmptyString
  | String d r => String d (drop_last r)
  end.

(** [strings.CutPrefix(s, p)] *)
Fixpoint CutPrefix (p s : string) : option string :=
  match p, s with
  | EmptyString, _ => Some s
  | String a p', String b s' =>
      if Ascii.eqb a b then CutPrefix p' s' else None
  | String _ _, EmptyString => None
  end.

(** every byte of [s] satisfies [f] *)
Fixpoint all (f : ascii -> bool) (s : string) : bool :=
  match s with
  | EmptyString => true
  | String c r => f c && all f r
  end.

(** [strings.Map(f, s)] on bytes *)
Fixpoint Map (f : ascii -> ascii) (s : string) : string :=
  match s with
  | EmptyString => EmptyString
  | String c r => String (f c) (Map f r)
  end.

(** [strings.Join(l, sep)] *)
Fixpoint Join (l : list string) (sep : string) : string :=
  match l with
  | [] => EmptyString
  | [a] => a
  | a :: r => a +:+ sep +:+ Join r sep
  end.

(** [s[:n]] for [n <= len(s)], the whole of [s] otherwise *)
Fixpoint firstn (n : nat) (s : string) : string :=
  match n, s with
  | S m, String c r => String c (firstn m r)
  | _, _ => EmptyString
  end.

End strings.

(** ** net/url *)

Module url.

Inductive encoding := encodePath | encodeQueryComponent | encodeFragment.

Definition is_alnum (c : ascii) : bool :=
  let n := N_of_ascii c in
  ((97 <=? n) && (n <=? 122) || (65 <=? n) && (n <=? 90)
   || (48 <=? n) && (n <=? 57))%N.

(** [shouldEscape(c, mode)] for the three modes above *)
Definition shouldEscape (c : ascii) (mode : encoding) : bool :=
  if is_alnum c then false
  else if strings.mem c "-_.~" then false
  else if strings.mem c "$&+,/:;=?@" then
    match mode with
    | encodePath => Ascii.eqb c "?"
    | encodeQueryComponent => true
    | encodeFragment => false
    end
  else
    match mode with
    | encodeFragment => negb (strings.mem c "!()*")
    | _ => true
    end.

Definition upperhex : string := "0123456789ABCDEF".

Definition hexdigit (n : N) : ascii :=
  match String.get (N.to_nat n) upperhex with
  | Some c => c
  | None => "0"%char
  end.

(** [escape(s, mode)] *)
Fixpoint escape (s : string) (mode : encoding) : string :=
  match s with
  | EmptyString => EmptyString
  | String c r =>
      if shouldEscape c mode then
        match mode with
        | encodeQueryComponent =>
            if Ascii.eqb c " " then String "+" (escape r mode)
            else String "%" (String (hexdigit (N_of_ascii c / 16))
                   (String (hexdigit (N_of_ascii c mod 16)) (escape r mode)))
        | _ => String "%" (String (hexdigit (N_of_ascii c / 16))
                   (String (hexdigit (N_of_ascii c mod 16)) (escape r mode)))
        end
      else String c (escape r mode)
  end.

(** [url.QueryEscape] *)
Definition QueryEscape (s : string) : string := escape s encodeQueryComponent.

Definition ishex (c : ascii) : bool :=
  let n := N_of_ascii c in
  ((48 <=? n) && (n <=? 57) || (97 <=? n) && (n <=? 102)
   || (65 <=? n) && (n <=? 70))%N.

Definition unhex (c : ascii) : N :=
  let n := N_of_ascii c in
  (if (48 <=? n) && (n <=? 57) then n - 48
   else if (97 <=? n) && (n <=? 102) then n - 97 + 10
   else if (65 <=? n) && (n <=? 70) then n - 65 + 10
   else 0)%N.

(** [unescape(s, mode)]: the first malformed escape is reported with at
    most three bytes of context; otherwise every [%XY] is decoded and a
    [+] becomes a space in query components only. *)
Fixpoint unescape (s : string) (mode : encoding) : string * option error :=
  match s with
  | EmptyString => (EmptyString, None)
  | String c r =>
      if Ascii.eqb c "%" then
        match r with
        | String a (String b r') =>
            if ishex a && ishex b then
              let '(t, e) := unescape r' mode in
              match e with
              | Some x => (EmptyString, Some x)
              | None =>
                  (String (ascii_of_N (unhex a * 16 + unhex b)) t, None)
              end
            else (EmptyString, Some (EscapeError (strings.firstn 3 s)))
        | _ => (EmptyString, Some (EscapeError (strings.firstn 3 s)))
        end
      else
        let '(t, e) := unescape r mode in
        match e with
        | Some x => (EmptyString, Some x)
        | None =>
            let d := match mode with
                     | encodeQueryComponent =>
                         if Ascii.eqb c "+" then " "%char else c
                     | _ => c
                     end in
            (String d t, None)
        end
  end.

(** [validEncoding(s, mode)] *)
Fixpoint validEncoding (s : string) (mode : encoding) : bool :=
  match s with
  | EmptyString => true
  | String c r =>
      (strings.mem c "!$&'()*+,;=:@[]%" || negb (shouldEscape c mode))
      && validEncoding r mode
  end.

(** [stringContainsCTLByte] *)
Fixpoint stringContainsCTLByte (s : string) : bool :=
  match s with
  | EmptyString => false
  | String c r =>
      (N_of_ascii c <? 32)%N || (N_of_ascii c =? 127)%N
      || stringContainsCTLByte r
  end.

(** The fields of [url.URL] that a URL on the S3 endpoint can carry
    ([Opaque] and [User] stay empty). *)
Record URL := mkURL {
  Scheme : string;
  Host : string;
  Path : string;
  RawPath : string;
  ForceQuery : bool;
  RawQuery : string;
  Fragment : string;
  RawFragment : string
}.

(** [u.setPath(p)] and [u.setFragment(f)], as the pair of the decoded
    form and the raw hint to store. *)
Definition setEncoded (p : string) (mode : encoding)
  : (string * string) * option error :=
  let '(path, e) := unescape p mode in
  match e with
  | Some x => ((EmptyString, EmptyString), Some x)
  | None =>
      if String.eqb p (escape path mode) then ((path, EmptyString), None)
      else ((path, p), None)
  end.

(** [u.EscapedPath()] and [u.EscapedFragment()] *)
Definition escaped (decoded raw : string) (mode : encoding) : string :=
  let '(p, e) := unescape raw mode in
  if negb (String.eqb raw "") && validEncoding raw mode
     && match e with None => String.eqb p decoded | Some _ => false end
  then raw
  else if match mode with encodePath => String.eqb decoded "*" | _ => false end
  then "*"
  else escape decoded mode.

Definition EscapedPath (u : URL) : string :=
  escaped (Path u) (RawPath u) encodePath.

Definition EscapedFragment (u : URL) : string :=
  escaped (Fragment u) (RawFragment u) encodeFragment.

(** [u.String()] for a URL with a scheme and a host *)
Definition URL_String (u : URL) : string :=
  let path := EscapedPath u in
  Scheme u +:+ ":" +:+ "//" +:+ Host u
    +:+ (match path with
         | String c _ => if Ascii.eqb c "/" then "" else "/"
         | EmptyString => ""
         end)
    +:+ path
    +:+ (if ForceQuery u || negb (String.eqb (RawQuery u) "")
         then "?" +:+ RawQuery u else "")
    +:+ (if negb (String.eqb (Fragment u) "")
         then "#" +:+ EscapedFragment u else "").

Definition endpoint : string := "https://s3.amazonaws.com/".

(** [parse(rawURL, false)] on a URL that starts with [endpoint] (which
    holds no [#] and no [?]): the scheme is [https], the authority ends at
    the third slash, and [rest] is what follows that slash. *)
Definition parse (rest : string) : option URL * option error :=
  if stringContainsCTLByte rest then (None, Some invalidControlCharacter)
  else
    let '(force, (p, q)) :=
      if strings.HasSuffix "?" rest && (strings.Count "?" rest =? 1)%nat
      then (true, (strings.drop_last rest, EmptyString))
      else (false, strings.Cut "?" rest) in
    let '((path, raw), e) := setEncoded (String "/" p) encodePath in
    match e with
    | Some x => (None, Some x)
    | None =>
        (Some (mkURL "https" "s3.amazonaws.com" path raw force q
                 EmptyString EmptyString), None)
    end.

(** [url.Parse(rawURL)].  Only URLs on the S3 endpoint are modelled, the
    only ones this package builds (see [URL_String_on_endpoint] below); any
    other argument is reported as an error of the model's own. *)
Definition Parse (rawURL : string) : option URL * option error :=
  match strings.CutPrefix endpoint rawURL with
  | None => (None, Some (external "url outside the S3 endpoint"))
  | Some rest =>
      let '(r, frag) := strings.Cut "#" rest in
      match parse r with
      | (Some u, None) =>
          if String.eqb frag "" then (Some u, None)
          else
            let '((f, rawf), e) := setEncoded frag encodeFragment in
            match e with
            | Some x => (None, Some (urlError "parse" rawURL x))
            | None =>
                (Some (mkURL (Scheme u) (Host u) (Path u) (RawPath u)
                         (ForceQuery u) (RawQuery u) f rawf), None)
            end
      | (_, Some x) => (None, Some (urlError "parse" (endpoint +:+ r) x))
      | (_, None) => (None, None)
      end
  end.

(** The bytes [QueryEscape] can produce, and the slash. *)
Definition pathch (c : ascii) : bool :=
  is_alnum c || strings.mem c "-_.~+%/".

(** The bytes [QueryEscape] leaves as they are. *)
Definition unreserved (c : ascii) : bool :=
  negb (shouldEscape c encodeQueryComponent).

(** The bytes that read the same in the escaped and in the decoded path
    of an object: the unreserved ones and the space. *)
Definition plain (c : ascii) : bool := unreserved c || Ascii.eqb c " ".

(** [url.Values] *)
Definition Values_Add (v : gmap string (list string)) (key value : string)
  : gmap string (list string) :=
  <[key := default [] (v !! key) ++ [value]]> v.

Fixpoint encode_key (k : string) (vs : list string) (buf : string) : string :=
  match vs with
  | [] => buf
  | v :: vs' =>
      encode_key k vs'
        (buf +:+ (if String.eqb buf "" then "" else "&")
             +:+ QueryEscape k +:+ "=" +:+ QueryEscape v)
  end.

(** [v.Encode()]: keys in increasing order, values in insertion order *)
Definition Values_Encode (v : gmap string (list string)) : string :=
  fold_left (fun buf k => encode_key k (default [] (v !! k)) buf)
    (merge_sort String.le (map fst (map_to_list v))) EmptyString.

End url.

(** ** path/filepath and net/http *)

Module filepath.

(** [filepath.Ext]: the suffix starting at the last dot of the last
    slash-separated element, empty when that element has no dot. *)
Fixpoint Ext (path : string) : string :=
  match path with
  | EmptyString => EmptyString
  | String c r =>
      if strings.mem "/" r || strings.mem "." r then Ext r
      else if Ascii.eqb c "." then path
      else EmptyString
  end.

End filepath.

Module http.

(** What is handed to [http.NewRequest] as the body. *)
Inductive body :=
  | NoBody                          (* [nil] *)
  | BufferBody (data : list Z)      (* a [*bytes.Buffer] *)
  | ReaderBody (data : list Z).     (* any other [io.Reader] *)

Record Request := mkRequest {
  Method : string;
  URL : url.URL;
  Header : gmap string (list string);
  Body : body;
  ContentLength : Z
}.

(** [Status] is the status line text ("404 Not Found"), [StatusCode] its
    number; reading [RespBody] yields the bytes, then the error if any. *)
Record Response := mkResponse {
  Status : string;
  StatusCode : Z;
  RespBody : list Z * option error
}.

(** [http.NewRequest(method, urlStr, body)] for the methods GET, PUT and
    DELETE: the URL is parsed again, the header starts empty, and the
    length of a [*bytes.Buffer] body is recorded. *)
Definition NewRequest (method urlStr : string) (b : body)
  : option Request * option error :=
  match url.Parse urlStr with
  | (Some u, None) =>
      (Some (mkRequest method u ∅ b
               match b with
               | BufferBody d => Z.of_nat (length d)
               | _ => 0
               end), None)
  | (_, e) => (None, e)
  end.

(** [r.Header.Add(key, value)]; the keys this package uses are already
    in canonical form. *)
Definition Header_Add (r : Request) (key value : string) : Request :=
  mkRequest (Method r) (URL r)
    (<[key := default [] (Header r !! key) ++ [value]]> (Header r))
    (Body r) (ContentLength r).

Definition set_ContentLength (r : Request) (n : Z) : Request :=
  mkRequest (Method r) (URL r) (Header r) (Body r) n.

(** [io.Copy(&buf, body)] *)
Definition io_Copy (b : list Z * option error)
  : list Z * (Z * option error) :=
  (fst b, (Z.of_nat (length (fst b)), snd b)).

End http.

(** ** Package s3 *)

Module s3.

(** Modelled from the spec: [aws.Auth], declared in package [aws], an
    access key (identifier) and a secret key (signing key). *)
Record Auth := mkAuth { AccessKey : string; SecretKey : string }.

(** Modelled from the spec: [Object], the bucket name and key of a stored
    item. *)
Record Object := mkObject { Bucket : string; Key : string }.

(** Modelled from the spec: [ListRequest] (bucket, max-keys, marker,
    prefix). *)
Record ListRequest := mkListRequest {
  ListRequest_Bucket : string;
  MaxKeys : Z;
  Marker : string;
  Prefix : string
}.

(** Modelled from the spec: [GetRequest] and [DeleteRequest], an object
    reference each. *)
Record GetRequest := mkGetRequest { GetRequest_Object : Object }.
Record DeleteRequest := mkDeleteRequest { DeleteRequest_Object : Object }.

(** Modelled from the spec: the factory of [PutRequest], which produces a
    fresh stream (or fails) and reports its byte length. *)
Record ReaderFactory := mkReaderFactory {
  CreateReader : list Z + error;
  Len : Z
}.

(** Modelled from the spec: [PutRequest] and [PutObjectRequest]. *)
Record PutRequest := mkPutRequest {
  PutRequest_Object : Object;
  PutRequest_ContentType : string;
  ReaderFact : ReaderFactory
}.

Record PutObjectRequest := mkPutObjectRequest {
  PutObjectRequest_Object : Object;
  PutObjectRequest_ContentType : string;
  Data : list Z
}.

Definition N : string := String (ascii_of_N 10) EmptyString.

(** The newline of the spec's string literals. *)
Definition nl : string := String "010" EmptyString.

(** [strings.Replace(s, " ", "+", -1)] *)
Definition plus (s : string) : string :=
  strings.Map (fun c => if Ascii.eqb c " " then "+"%char else c) s.

(** *** Effects: the clock, the transport and the streams *)

Inductive Event :=
  | EvNow                            (* [time.Now()] *)
  | EvCreateReader                   (* [req.ReaderFact.CreateReader()] *)
  | EvRoundTrip (r : http.Request)   (* [transport.RoundTrip(hreq)] *)
  | EvCloseBody                      (* [resp.Body.Close()] *)
  | EvCloseReader.                   (* [reader.Close()] *)

(** [ticks] counts the readings of the clock so far, [trace] lists what
    the program has done to its environment, oldest first. *)
Record World := mkWorld { ticks : nat; trace : list Event }.

(** The requests handed to the transport, in order. *)
Fixpoint requests (tr : list Event) : list http.Request :=
  match tr with
  | [] => []
  | EvRoundTrip r :: tr' => r :: requests tr'
  | _ :: tr' => requests tr'
  end.

Inductive Outcome (A : Type) :=
  | Ret (a : A)
  | Panic (msg : string).
Arguments Ret {A}.
Arguments Panic {A}.

Definition M (A : Type) : Type := World -> Outcome A * World.

Definition ret {A} (a : A) : M A := fun w => (Ret a, w).

Definition bind {A B} (m : M A) (k : A -> M B) : M B :=
  fun w =>
    match m w with
    | (Ret a, w') => k a w'
    | (Panic s, w') => (Panic s, w')
    end.

Definition panic {A} (msg : string) : M A := fun w => (Panic msg, w).

Definition emit (e : Event) : M unit :=
  fun w => (Ret tt, mkWorld (ticks w) (trace w ++ [e])).

(** [defer cleanup] followed by [body]: the cleanup runs when the body
    returns or panics. *)
Definition defer {A} (cleanup : M unit) (body : M A) : M A :=
  fun w => let '(o, w') := body w in (o, snd (cleanup w')).

#[global] Instance M_ret : MRet M := @ret.
#[global] Instance M_bind : MBind M := fun A B k m => bind m k.

(** *** Concrete environments, to run the operations on *)

Definition clock_2019 (n : nat) : time.Time :=
  time.mkTime (1546300800 + Z.of_nat n) 0 3600.

(** A transport that answers every request with the given status and
    body. *)
Definition respond (code : Z) (status : string) (data : list Z)
  : http.Request -> http.Response + error :=
  fun _ => inl (http.mkResponse status code (data, None)).

Definition no_types : string -> string := fun _ => EmptyString.

Definition auth_AKID : Auth := mkAuth "AKID" "secret".

Definition mykey : Object := mkObject "mybucket" "mykey".

(** Modelled from the spec: [ListBucketResult], the decoded list
    response, with at least the bucket name, the entries in order and the
    truncation indicator. *)
Record ListBucketResult_ := mkListBucketResult {
  Name : string;
  Contents : list string;
  IsTruncated : bool
}.

Definition zero_ListBucketResult : ListBucketResult_ :=
  mkListBucketResult EmptyString [] false.

(** An instance of the decoder for documents of the form
    [<ListBucketResult><Name>...</Name></ListBucketResult>].  Like
    [encoding/xml], it stores each element as soon as it has been read, so
    a document cut short after the name fails with the name stored. *)
Definition Unmarshal_name (data : list Z) (v : ListBucketResult_)
  : ListBucketResult_ * option error :=
  match strings.CutPrefix "<ListBucketResult>" (bytes.to_string data) with
  | None => (v, Some (external "expected element type <ListBucketResult>"))
  | Some r =>
      match strings.CutPrefix "<Name>" r with
      | None => (v, Some (external "XML syntax error: unexpected EOF"))
      | Some r =>
          let '(name, r) := strings.Cut "<" r in
          match strings.CutPrefix "/Name>" r with
          | None => (v, Some (external "XML syntax error: unexpected EOF"))
          | Some r =>
              let v := mkListBucketResult name (Contents v) (IsTruncated v) in
              if String.eqb r "</ListBucketResult>" then (v, None)
              else (v, Some (external "XML syntax error: unexpected EOF"))
          end
      end
  end.

(** The body of a list response cut short after the bucket name. *)
Definition truncated_listing : list Z :=
  bytes.of_string "<ListBucketResult><Name>mybucket</Name>".

Definition list_mybucket : ListRequest :=
  mkListRequest "mybucket" 0 EmptyString EmptyString.

(** How often the trace closes a response body, and a request stream. *)
Fixpoint closes (tr : list Event) : nat :=
  match tr with
  | [] => O
  | EvCloseBody :: tr' => S (closes tr')
  | _ :: tr' => closes tr'
  end.

Fixpoint reader_closes (tr : list Event) : nat :=
  match tr with
  | [] => O
  | EvCloseReader :: tr' => S (reader_closes tr')
  | _ :: tr' => reader_closes tr'
  end.

(** A transport that fails on every request. *)
Definition refuse (tag : string) : http.Request -> http.Response + error :=
  fun _ => inr (external tag).

Definition put_65_bytes : PutRequest :=
  mkPutRequest mykey "text/plain" (mkReaderFactory (inl (repeat 0 65)) 65).

Definition put_no_reader : PutRequest :=
  mkPutRequest mykey "text/plain"
    (mkReaderFactory (inr (external "open: no such file")) 65).

(** The bytes an encoded query can hold. *)
Definition query_byte (c : ascii) : bool :=
  url.is_alnum c || strings.mem c "-_.~+%=&".

(** A MIME table that knows one extension. *)
Definition types_txt : string -> string :=
  fun ext => if String.eqb ext ".txt" then "text/plain" else EmptyString.

Definition notes_txt : PutObjectRequest :=
  mkPutObjectRequest (mkObject "mybucket" "dir/notes.txt") EmptyString [].

Definition list_newline_bucket : ListRequest :=
  mkListRequest ("my" +:+ nl +:+ "bucket") 0 EmptyString EmptyString.

(** A stream of three bytes behind a factory that reports 65. *)
Definition put_wrong_length : PutRequest :=
  mkPutRequest mykey "text/plain" (mkReaderFactory (inl [1; 2; 3]) 65).

Section Package.

(** The environment: the successive readings of the wall clock,
    [http.DefaultTransport], the MIME table behind
    [mime.TypeByExtension], and [xml.Unmarshal] into the result type. *)
Variable clock : nat -> time.Time.
Variable transport : http.Request -> http.Response + error.
Variable TypeByExtension : string -> string.
Variable ListBucketResult : Type.
Variable zero : ListBucketResult.
Variable xml_Unmarshal :
  list Z -> ListBucketResult -> ListBucketResult * option error.

Definition time_Now : M time.Time :=
  fun w => (Ret (clock (ticks w)), mkWorld (S (ticks w)) (trace w ++ [EvNow])).

Definition RoundTrip (r : http.Request) : M (http.Response + error) :=
  emit (EvRoundTrip r) ;; ret (transport r).

Definition mimeType (name : string) : string :=
  let ext := filepath.Ext name in
  TypeByExtension ext.

Definition format (t : time.Time) : string :=
  time.Format_RFC1123Z (time.UTC t).

Definition sign (a : Auth) (toSign : string) : string * option error :=
  let h := hmac.New (bytes.of_string (SecretKey a)) in
  let '(h, (_, err)) := hmac.Write h (bytes.of_string toSign) in
  match err with
  | Some e => (EmptyString, Some e)
  | None =>
      let sig := hmac.Sum h [] in
      let encoder := encoder.New [] in
      let '(encoder, (_, err)) := encoder.Write encoder sig in
      match err with
      | Some e => (EmptyString, Some e)
      | None =>
          let '(encoder, err) := encoder.Close encoder in
          match err with
          | Some e => (EmptyString, Some e)
          | None => (bytes.to_string (encoder.w encoder), None)
          end
      end
  end.

Definition signGet (path : string) (a : Auth) (t : time.Time) :=
  sign a ("GET" +:+ N +:+ N +:+ N +:+ format t +:+ N +:+ path).

Definition signPut (path ct : string) (a : Auth) (t : time.Time) :=
  sign a ("PUT" +:+ N +:+ N +:+ ct +:+ N +:+ format t +:+ N +:+ path).

Definition signList (path : string) (a : Auth) (t : time.Time) :=
  sign a ("GET" +:+ N +:+ N +:+ N +:+ format t +:+ N +:+ path).

Definition signDelete (path : string) (a : Auth) (t : time.Time) :=
  sign a ("DELETE" +:+ N +:+ N +:+ N +:+ format t +:+ N +:+ path).

Definition esc (s : string) : string := url.QueryEscape s.

Definition createURL (o : Object) : option url.URL * option error :=
  url.Parse ("https://s3.amazonaws.com/" +:+ esc (Bucket o) +:+ "/"
               +:+ esc (Key o)).

(** The query of a list request (lines 34 to 45 of [list]). *)
Definition list_query (req : ListRequest) : gmap string (list string) :=
  let query : gmap string (list string) := ∅ in
  let query :=
    if 0 <? MaxKeys req
    then url.Values_Add query "max-keys" (fmt.Sprintf_d (MaxKeys req))
    else url.Values_Add query "max-keys" "1000" in
  let query :=
    if negb (String.eqb (Marker req) "")
    then url.Values_Add query "marker" (Marker req) else query in
  if negb (String.eqb (Prefix req) "")
  then url.Values_Add query "prefix" (Prefix req) else query.

Definition list (auth : Auth) (req : ListRequest)
  : M (ListBucketResult * option error) :=
  let out := zero in
  if String.eqb (ListRequest_Bucket req) "" then
    ret (out, Some (errors_New "no bucket name"))
  else
    let query := list_query req in
    let '(u, _) :=
      url.Parse ("https://s3.amazonaws.com/" +:+ ListRequest_Bucket req
                   +:+ "/?" +:+ url.Values_Encode query) in
    now ← time_Now;
    match u with
    | None => panic "invalid memory address or nil pointer dereference"
    | Some u =>
        match signList (url.Path u) auth now with
        | (_, Some err) => ret (out, Some err)
        | (sig, None) =>
            match http.NewRequest "GET" (url.URL_String u) http.NoBody with
            | (Some hreq, None) =>
                let hreq := http.Header_Add hreq "Date" (format now) in
                let hreq :=
                  http.Header_Add hreq "Authorization"
                    ("AWS " +:+ AccessKey auth +:+ ":" +:+ sig) in
                r ← RoundTrip hreq;
                match r with
                | inr err => ret (out, Some err)
                | inl resp =>
                    defer (emit EvCloseBody)
                      (if negb (http.StatusCode resp =? 200) then
                         ret (out, Some (errors_New (http.Status resp)))
                       else
                         let '(buf, (_, err)) :=
                           http.io_Copy (http.RespBody resp) in
                         match err with
                         | Some e => ret (out, Some e)
                         | None =>
                             let '(out, _) := xml_Unmarshal buf out in
                             ret (out, None)
                         end)
                end
            | (_, err) => ret (out, err)
            end
        end
    end.

(** [get] returns the open response body; the caller closes it. *)
Definition get (auth : Auth) (req : GetRequest)
  : M (option (Datatypes.list Z * option error) * option error) :=
  match createURL (GetRequest_Object req) with
  | (Some u, None) =>
      now ← time_Now;
      match signGet (url.Path u) auth now with
      | (_, Some err) => ret (None, Some err)
      | (sig, None) =>
          match http.NewRequest "GET" (url.URL_String u) http.NoBody with
          | (Some hreq, None) =>
              let hreq := http.Header_Add hreq "Date" (format now) in
              let hreq :=
                http.Header_Add hreq "Authorization"
                  ("AWS " +:+ AccessKey auth +:+ ":" +:+ sig) in
              r ← RoundTrip hreq;
              match r with
              | inr err => ret (None, Some err)
              | inl resp =>
                  if negb (http.StatusCode resp =? 200) then
                    ret (None, Some (errors_New (http.Status resp)))
                  else ret (Some (http.RespBody resp), None)
              end
          | (_, err) => ret (None, err)
          end
      end
  | (_, err) => ret (None, err)
  end.

Definition del (auth : Auth) (req : DeleteRequest) : M (option error) :=
  match createURL (DeleteRequest_Object req) with
  | (Some u, None) =>
      now ← time_Now;
      match signDelete (url.Path u) auth now with
      | (_, Some err) => ret (Some err)
      | (sig, None) =>
          match http.NewRequest "DELETE" (url.URL_String u) http.NoBody with
          | (Some hreq, None) =>
              let hreq := http.Header_Add hreq "Date" (format now) in
              let hreq :=
                http.Header_Add hreq "Authorization"
                  ("AWS " +:+ AccessKey auth +:+ ":" +:+ sig) in
              r ← RoundTrip hreq;
              match r with
              | inr err => ret (Some err)
              | inl resp =>
                  defer (emit EvCloseBody)
                    (if (http.StatusCode resp <? 200)
                        || (300 <=? http.StatusCode resp)
                     then ret (Some (errors_New (http.Status resp)))
                     else ret None)
              end
          | (_, err) => ret err
          end
      end
  | (_, err) => ret err
  end.

Definition getObject (auth : Auth) (req : GetRequest)
  : M (option (Datatypes.list Z) * option error) :=
  '(r, err) ← get auth req;
  match r, err with
  | Some r, None =>
      let '(buf, (_, err)) := http.io_Copy r in
      match err with
      | Some e => ret (None, Some e)
      | None => ret (Some buf, None)
      end
  | _, _ => ret (None, err)
  end.

Definition put (auth : Auth) (req : PutRequest) : M (option error) :=
  match createURL (PutRequest_Object req) with
  | (Some u, None) =>
      now ← time_Now;
      emit EvCreateReader ;;
      match CreateReader (ReaderFact req) with
      | inr err => ret (Some err)
      | inl reader =>
          defer (emit EvCloseReader)
            match http.NewRequest "PUT" (url.URL_String u)
                    (http.ReaderBody reader) with
            | (Some hreq, None) =>
                let hreq := http.Header_Add hreq "Date" (format now) in
                let ContentType :=
                  if (String.length (PutRequest_ContentType req) =? 0)%nat
                  then mimeType (Key (PutRequest_Object req))
                  else PutRequest_ContentType req in
                match signPut (url.Path u) ContentType auth now with
                | (_, Some err) => ret (Some err)
                | (sig, None) =>
                    let hreq :=
                      http.set_ContentLength hreq (Len (ReaderFact req)) in
                    let hreq :=
                      http.Header_Add hreq "Content-Type" ContentType in
                    let hreq :=
                      http.Header_Add hreq "Content-Length"
                        (utf8.string_of_int (Len (ReaderFact req))) in
                    let hreq :=
                      http.Header_Add hreq "Authorization"
                        ("AWS " +:+ AccessKey auth +:+ ":" +:+ sig) in
                    r ← RoundTrip hreq;
                    match r with
                    | inr err => ret (Some err)
                    | inl resp =>
                        defer (emit EvCloseBody)
                          (if negb (http.StatusCode resp =? 200) then
                             ret (Some (errors_New (http.Status resp)))
                           else ret None)
                    end
                end
            | (_, err) => ret err
            end
      end
  | (_, err) => ret err
  end.

Definition putObject (auth : Auth) (req : PutObjectRequest)
  : M (option error) :=
  match createURL (PutObjectRequest_Object req) with
  | (Some u, None) =>
      now ← time_Now;
      let reader := http.BufferBody (Data req) in
      match http.NewRequest "PUT" (url.URL_String u) reader with
      | (Some hreq, None) =>
          let hreq := http.Header_Add hreq "Date" (format now) in
          let ContentType :=
            if (String.length (PutObjectRequest_ContentType req) =? 0)%nat
            then mimeType (Key (PutObjectRequest_Object req))
            else PutObjectRequest_ContentType req in
          match signPut (url.Path u) ContentType auth now with
          | (_, Some err) => ret (Some err)
          | (sig, None) =>
              let hreq :=
                http.set_ContentLength hreq (Z.of_nat (length (Data req))) in
              let hreq := http.Header_Add hreq "Content-Type" ContentType in
              let hreq :=
                http.Header_Add hreq "Content-Length"
                  (utf8.string_of_int (Z.of_nat (length (Data req)))) in
              let hreq :=
                http.Header_Add hreq "Authorization"
                  ("AWS " +:+ AccessKey auth +:+ ":" +:+ sig) in
              r ← RoundTrip hreq;
              match r with
              | inr err => ret (Some err)
              | inl resp =>
                  defer (emit EvCloseBody)
                    (if negb (http.StatusCode resp =? 200) then
                       ret (Some (errors_New (http.Status resp)))
                     else ret None)
              end
          end
      | (_, err) => ret err
      end
  | (_, err) => ret err
  end.

(** The five operations that issue a request, with their results reduced
    to the error. *)
Inductive Op :=
  | OpList (req : ListRequest)
  | OpGet (req : GetRequest)
  | OpDelete (req : DeleteRequest)
  | OpPut (req : PutRequest)
  | OpPutObject (req : PutObjectRequest).

Definition run (auth : Auth) (op : Op) : M (option error) :=
  match op with
  | OpList req => r ← list auth req; ret (snd r)
  | OpGet req => r ← get auth req; ret (snd r)
  | OpDelete req => del auth req
  | OpPut req => put auth req
  | OpPutObject req => putObject auth req
  end.

(** *** Names for what the puts build *)

(** The content type a put signs and sends: the caller's, or the one
    looked up from the extension of the key. *)
Definition resolved_type (ct key : string) : string :=
  if (String.length ct =? 0)%nat then mimeType key else ct.

(** The request a put builds from the object URL [u], the body, the
    declared length [n], the content type and the signature. *)
Definition put_request (u : url.URL) (b : http.body) (n : Z)
    (date ct : string) (auth : Auth) (sig : string) : http.Request :=
  http.Header_Add
    (http.Header_Add
       (http.Header_Add
          (http.set_ContentLength
             (http.Header_Add
                (http.mkRequest "PUT" u ∅ b
                   match b with
                   | http.BufferBody d => Z.of_nat (length d)
                   | _ => 0
                   end)
                "Date" date) n)
          "Content-Type" ct)
       "Content-Length" (utf8.string_of_int n))
    "Authorization" ("AWS " +:+ AccessKey auth +:+ ":" +:+ sig).

Definition put_result (r : http.Response + error) : option error :=
  match r with
  | inr err => Some err
  | inl resp =>
      if negb (http.StatusCode resp =? 200)
      then Some (errors_New (http.Status resp))
      else None
  end.

(** *** The signer *)

Lemma Encode_group (a b c : Z) (r : Datatypes.list Z) :
  base64.Encode (a :: b :: c :: r)
  = base64.Encode [a; b; c] ++ base64.Encode r.
Proof. reflexivity. Qed.

Lemma Encode_split (k : nat) :
  forall p : Datatypes.list Z,
    base64.Encode (firstn (3 * k) p) ++ base64.Encode (skipn (3 * k) p)
    = base64.Encode p.
Proof.
  induction k as [|k IH]; intros p; [reflexivity|].
  replace (3 * S k)%nat with (S (S (S (3 * k)))) by lia.
  destruct p as [|a [|b [|c r]]].
  1-3: reflexivity.
  cbn [firstn skipn].
  rewrite (Encode_group a b c (firstn (3 * k) r)), (Encode_group a b c r).
  rewrite <- (IH r), <- app_assoc. reflexivity.
Qed.

Lemma whole_groups (p : Datatypes.list Z) :
  (length p - length p mod 3 = 3 * (length p / 3))%nat.
Proof. pose proof (Nat.div_mod_eq (length p) 3). lia. Qed.

Lemma encoder_Write_fresh (p : Datatypes.list Z) :
  encoder.Write (E := error) (encoder.New []) p
  = (encoder.Enc None (skipn (length p - length p mod 3) p)
       (base64.Encode (firstn (length p - length p mod 3) p)),
     (Z.of_nat (length p), None)).
Proof. reflexivity. Qed.

Lemma encoder_Write_Close (p : Datatypes.list Z) :
  exists e n e',
    encoder.Write (E := error) (encoder.New []) p = (e, (n, None))
    /\ encoder.Close e = (e', None)
    /\ encoder.w e' = base64.Encode p.
Proof.
  rewrite encoder_Write_fresh, whole_groups.
  pose proof (Encode_split (length p / 3) p) as HS.
  destruct (skipn (3 * (length p / 3)) p) as [|x r] eqn:Hr.
  - eexists _, _, _. split; [reflexivity|]. split; [reflexivity|].
    cbn [encoder.w]. rewrite <- HS. cbn [base64.Encode]. now rewrite app_nil_r.
  - eexists _, _, _. split; [reflexivity|]. split; [reflexivity|].
    cbn [encoder.w]. exact HS.
Qed.

Lemma hmac_Sum_Write (key msg : Datatypes.list Z) :
  hmac.Sum (fst (hmac.Write (E := error) (hmac.New key) msg)) []
  = hmac.hmac_sha1 key msg.
Proof. reflexivity. Qed.

Lemma sign_spec (a : Auth) (toSign : string) :
  sign a toSign
  = (base64.EncodeToString
       (hmac.hmac_sha1 (bytes.of_string (SecretKey a))
          (bytes.of_string toSign)), None).
Proof.
  unfold sign, hmac.Write. cbv beta iota zeta.
  rewrite (hmac_Sum_Write (bytes.of_string (SecretKey a)) (bytes.of_string toSign)
           : hmac.Sum {| hmac.opad := _; hmac.ipad := _; hmac.inner := _ |} [] = _).
  destruct (encoder_Write_Close
              (hmac.hmac_sha1 (bytes.of_string (SecretKey a))
                 (bytes.of_string toSign)))
    as (e & n & e' & HW & HC & Hw).
  rewrite HW. cbv beta iota. rewrite HC. cbv beta iota. now rewrite Hw.
Qed.

(** *** The library models on published test vectors *)

Example sha1_two_blocks :
  sha1.Sum
    (bytes.of_string
       "abcdbcdecdefdefgefghfghighijhijkijkljklmklmnlmnomnopnopq")
  = [132; 152; 62; 68; 28; 59; 210; 110; 186; 174; 74; 161; 249; 81; 41;
     229; 229; 70; 112; 241].
Proof. vm_compute. reflexivity. Qed.

Example hmac_sha1_rfc2202_case2 :
  hmac.hmac_sha1 (bytes.of_string "Jefe")
    (bytes.of_string "what do ya want for nothing?")
  = [239; 252; 223; 106; 229; 235; 47; 162; 210; 116; 22; 213; 241; 132;
     223; 156; 37; 154; 124; 121].
Proof. vm_compute. reflexivity. Qed.

Example hmac_sha1_rfc2202_case6 :
  hmac.hmac_sha1 (repeat 0xaa 80)
    (bytes.of_string
       "Test Using Larger Than Block-Size Key - Hash Key First")
  = [170; 74; 229; 225; 82; 114; 208; 14; 149; 112; 86; 55; 206; 138; 59;
     85; 237; 64; 33; 18].
Proof. vm_compute. reflexivity. Qed.

Example base64_rfc4648 :
  base64.EncodeToString (bytes.of_string "foobar") = "Zm9vYmFy"
  /\ base64.EncodeToString (bytes.of_string "fooba") = "Zm9vYmE="
  /\ base64.EncodeToString (bytes.of_string "foob") = "Zm9vYg==".
Proof. repeat split; vm_compute; reflexivity. Qed.

Example format_leap_day :
  format (time.mkTime 951868799 0 (-19800))
  = "Tue, 29 Feb 2000 23:59:59 +0000".
Proof. vm_compute. reflexivity. Qed.

Example string_of_int_examples :
  utf8.string_of_int 65 = "A"
  /\ bytes.of_string (utf8.string_of_int 233) = [195; 169]
  /\ bytes.of_string (utf8.string_of_int 8364) = [226; 130; 172]
  /\ bytes.of_string (utf8.string_of_int 1114112) = [239; 191; 189].
Proof. repeat split; vm_compute; reflexivity. Qed.

(** *** Strings *)

Lemma append_cons (x : ascii) (a b : string) :
  String x a +:+ b = String x (a +:+ b).
Proof. reflexivity. Qed.

Lemma append_nil_l (b : string) : "" +:+ b = b.
Proof. reflexivity. Qed.

Lemma append_assoc (a b c : string) : (a +:+ b) +:+ c = a +:+ (b +:+ c).
Proof.
  induction a as [|x a IH]; [reflexivity|].
  rewrite !append_cons. now rewrite IH.
Qed.

Lemma append_nil_r (a : string) : a +:+ "" = a.
Proof.
  induction a as [|x a IH]; [reflexivity|].
  rewrite append_cons. now rewrite IH.
Qed.

Lemma all_append (f : ascii -> bool) (a b : string) :
  strings.all f (a +:+ b) = strings.all f a && strings.all f b.
Proof.
  induction a as [|x a IH]; [reflexivity|].
  rewrite append_cons. simpl. now rewrite IH, andb_assoc.
Qed.

Lemma Map_append (f : ascii -> ascii) (a b : string) :
  strings.Map f (a +:+ b) = strings.Map f a +:+ strings.Map f b.
Proof.
  induction a as [|x a IH]; [reflexivity|].
  rewrite append_cons. simpl. now rewrite IH.
Qed.

Lemma CutPrefix_append (p s : string) :
  strings.CutPrefix p (p +:+ s) = Some s.
Proof.
  induction p as [|x p IH]; [now destruct s|].
  rewrite append_cons. simpl. now rewrite Ascii.eqb_refl.
Qed.

Ltac each_byte c := destruct c as [[] [] [] [] [] [] [] []].

(** *** Path bytes: no control byte, no [#], no [?], valid in a path *)

Lemma pathch_byte (c : ascii) :
  url.pathch c = true ->
  ((N_of_ascii c <? 32)%N || (N_of_ascii c =? 127)%N) = false
  /\ Ascii.eqb "#" c = false /\ Ascii.eqb "?" c = false
  /\ (strings.mem c "!$&'()*+,;=:@[]%"
      || negb (url.shouldEscape c url.encodePath)) = true.
Proof. each_byte c; vm_compute; intros H; try discriminate H; auto. Qed.

Lemma pathch_no_ctl (s : string) :
  strings.all url.pathch s = true -> url.stringContainsCTLByte s = false.
Proof.
  induction s as [|c s IH]; [reflexivity|].
  cbn [strings.all strings.Cut strings.HasSuffix url.stringContainsCTLByte].
  intros [Hc Hs]%andb_prop. destruct (pathch_byte c Hc) as (-> & _).
  now apply IH.
Qed.

Lemma pathch_Cut_fragment (s : string) :
  strings.all url.pathch s = true -> strings.Cut "#" s = (s, "").
Proof.
  induction s as [|c s IH]; [reflexivity|].
  cbn [strings.all strings.Cut strings.HasSuffix url.stringContainsCTLByte].
  intros [Hc Hs]%andb_prop. destruct (pathch_byte c Hc) as (_ & -> & _).
  now rewrite (IH Hs).
Qed.

Lemma pathch_Cut_query (s : string) :
  strings.all url.pathch s = true -> strings.Cut "?" s = (s, "").
Proof.
  induction s as [|c s IH]; [reflexivity|].
  cbn [strings.all strings.Cut strings.HasSuffix url.stringContainsCTLByte].
  intros [Hc Hs]%andb_prop. destruct (pathch_byte c Hc) as (_ & _ & -> & _).
  now rewrite (IH Hs).
Qed.

Lemma pathch_HasSuffix_query (s : string) :
  strings.all url.pathch s = true -> strings.HasSuffix "?" s = false.
Proof.
  induction s as [|c s IH]; [reflexivity|].
  cbn [strings.all strings.Cut strings.HasSuffix url.stringContainsCTLByte].
  intros [Hc Hs]%andb_prop. destruct (pathch_byte c Hc) as (_ & _ & -> & _).
  destruct s; [reflexivity | now apply IH].
Qed.

Lemma pathch_validEncoding (s : string) :
  strings.all url.pathch s = true -> url.validEncoding s url.encodePath = true.
Proof.
  induction s as [|c s IH]; [reflexivity|].
  cbn [strings.all url.validEncoding].
  intros [Hc Hs]%andb_prop. destruct (pathch_byte c Hc) as (_ & _ & _ & ->).
  now apply IH.
Qed.

(** *** Escaping and decoding *)

Lemma escape_cons (c : ascii) (r : string) (mode : url.encoding) :
  url.escape (String c r) mode
  = url.escape (String c "") mode +:+ url.escape r mode.
Proof.
  cbn [url.escape].
  destruct (url.shouldEscape c mode), mode, (Ascii.eqb c " "); reflexivity.
Qed.

Lemma QueryEscape_byte_pathch (c : ascii) :
  strings.all url.pathch (url.QueryEscape (String c "")) = true.
Proof. each_byte c; vm_compute; reflexivity. Qed.

Lemma QueryEscape_pathch (s : string) :
  strings.all url.pathch (url.QueryEscape s) = true.
Proof.
  unfold url.QueryEscape. induction s as [|c s IH]; [reflexivity|].
  rewrite escape_cons, all_append, IH.
  now rewrite (QueryEscape_byte_pathch c : strings.all _ (url.escape _ _) = _).
Qed.

Lemma unescape_QueryEscape_byte (c : ascii) (r t : string) :
  url.unescape r url.encodePath = (t, None) ->
  url.unescape (url.QueryEscape (String c "") +:+ r) url.encodePath
  = (String (if Ascii.eqb c " " then "+"%char else c) t, None).
Proof.
  intros H.
  each_byte c;
    match goal with
    | |- context [url.QueryEscape ?s] =>
        let e := eval vm_compute in (url.QueryEscape s) in
        change (url.QueryEscape s) with e
    end;
    rewrite ?append_cons, append_nil_l; simpl; rewrite H; reflexivity.
Qed.

Lemma unescape_QueryEscape (s r t : string) :
  url.unescape r url.encodePath = (t, None) ->
  url.unescape (url.QueryEscape s +:+ r) url.encodePath
  = (plus s +:+ t, None).
Proof.
  intros H. unfold url.QueryEscape, plus.
  induction s as [|c s IH]; [exact H|].
  rewrite escape_cons, append_assoc.
  cbn [strings.Map]. rewrite append_cons.
  now apply (unescape_QueryEscape_byte c).
Qed.

Lemma unescape_slash (r t : string) :
  url.unescape r url.encodePath = (t, None) ->
  url.unescape (String "/" r) url.encodePath = (String "/" t, None).
Proof. intros H. simpl. now rewrite H. Qed.

(** *** Parsing and printing the URL of an object *)

Lemma escaped_of_setEncoded (r path raw : string) :
  url.setEncoded (String "/" r) url.encodePath = ((path, raw), None) ->
  url.validEncoding (String "/" r) url.encodePath = true ->
  url.escaped path raw url.encodePath = String "/" r.
Proof.
  unfold url.setEncoded.
  destruct (url.unescape (String "/" r) url.encodePath) as [q [x|]] eqn:Hu;
    [discriminate|].
  destruct (String.eqb (String "/" r) (url.escape q url.encodePath)) eqn:He;
    intros [= <- <-] Hv; unfold url.escaped.
  - change (url.unescape "" url.encodePath) with (EmptyString, @None error).
    cbn [String.eqb negb andb].
    apply String.eqb_eq in He.
    destruct (String.eqb q "*") eqn:Hq; [|now symmetry].
    apply String.eqb_eq in Hq. subst q. vm_compute in He. discriminate He.
  - rewrite Hu, Hv, String.eqb_refl. reflexivity.
Qed.

Lemma Parse_path_only (rest path : string) :
  strings.all url.pathch rest = true ->
  url.unescape (String "/" rest) url.encodePath = (path, None) ->
  exists raw,
    url.Parse (url.endpoint +:+ rest)
    = (Some (url.mkURL "https" "s3.amazonaws.com" path raw false "" "" ""),
       None)
    /\ url.escaped path raw url.encodePath = String "/" rest.
Proof.
  intros Hc Hu.
  assert (Hv : url.validEncoding (String "/" rest) url.encodePath = true)
    by (apply pathch_validEncoding; cbn [strings.all]; now rewrite Hc).
  destruct (url.setEncoded (String "/" rest) url.encodePath)
    as [[q raw] e] eqn:Hs.
  assert (e = None /\ q = path) as [-> ->].
  { unfold url.setEncoded in Hs. rewrite Hu in Hs.
    destruct (String.eqb _ _); injection Hs as <- _ <-; auto. }
  exists raw. split; [|now apply escaped_of_setEncoded].
  unfold url.Parse. rewrite CutPrefix_append, (pathch_Cut_fragment _ Hc).
  unfold url.parse.
  rewrite (pathch_no_ctl _ Hc), (pathch_HasSuffix_query _ Hc).
  cbn [andb]. rewrite (pathch_Cut_query _ Hc), Hs. reflexivity.
Qed.

Lemma URL_String_path_only (rest path raw : string) :
  url.escaped path raw url.encodePath = String "/" rest ->
  url.URL_String
    (url.mkURL "https" "s3.amazonaws.com" path raw false "" "" "")
  = url.endpoint +:+ rest.
Proof.
  intros H. unfold url.URL_String, url.EscapedPath.
  cbn [url.Path url.RawPath url.Scheme url.Host url.ForceQuery url.RawQuery
       url.Fragment]. rewrite H. simpl. rewrite !append_nil_r. reflexivity.
Qed.

(** [createURL] never fails: the URL it returns has the decoded path
    [/bucket/key] with every space turned into [+], prints as the endpoint
    followed by the escaped bucket and key, and is parsed again to itself
    by [http.NewRequest]. *)
Lemma createURL_spec (o : Object) :
  exists u,
    createURL o = (Some u, None)
    /\ url.Path u = "/" +:+ plus (Bucket o) +:+ "/" +:+ plus (Key o)
    /\ url.EscapedPath u = "/" +:+ esc (Bucket o) +:+ "/" +:+ esc (Key o)
    /\ url.URL_String u
       = "https://s3.amazonaws.com/" +:+ esc (Bucket o) +:+ "/"
           +:+ esc (Key o)
    /\ forall method b,
         http.NewRequest method (url.URL_String u) b
         = (Some (http.mkRequest method u ∅ b
                    match b with
                    | http.BufferBody d => Z.of_nat (length d)
                    | _ => 0
                    end), None).
Proof.
  set (rest := esc (Bucket o) +:+ "/" +:+ esc (Key o)).
  set (path := "/" +:+ plus (Bucket o) +:+ "/" +:+ plus (Key o)).
  assert (Hc : strings.all url.pathch rest = true).
  { unfold rest, esc. rewrite !all_append, !QueryEscape_pathch. reflexivity. }
  assert (Hu : url.unescape (String "/" rest) url.encodePath = (path, None)).
  { unfold rest, path, esc. apply unescape_slash.
    apply unescape_QueryEscape. apply unescape_slash.
    rewrite <- (append_nil_r (url.QueryEscape (Key o))).
    rewrite <- (append_nil_r (plus (Key o))).
    now apply unescape_QueryEscape. }
  destruct (Parse_path_only rest path Hc Hu) as (raw & HP & HE).
  pose proof (URL_String_path_only rest path raw HE) as HS.
  eexists. split; [exact HP|]. split; [reflexivity|].
  split; [exact HE|]. split; [exact HS|].
  intros method b. unfold http.NewRequest. rewrite HS, HP. reflexivity.
Qed.

Lemma unescape_slash_inv (r t : string) :
  url.unescape (String "/" r) url.encodePath = (t, None) ->
  exists t', t = String "/" t'.
Proof.
  simpl. destruct (url.unescape r url.encodePath) as [t0 [x|]];
    intros [= <-]; eauto.
Qed.

Lemma escaped_on_slash (p path raw : string) :
  url.setEncoded (String "/" p) url.encodePath = ((path, raw), None) ->
  exists x, url.escaped path raw url.encodePath = String "/" x.
Proof.
  unfold url.setEncoded.
  destruct (url.unescape (String "/" p) url.encodePath) as [q [x|]] eqn:Hu;
    [discriminate|].
  destruct (unescape_slash_inv _ _ Hu) as [t' ->].
  assert (Hd : exists x,
             (if String.eqb (String "/" t') "*" then "*"
              else url.escape (String "/" t') url.encodePath)
             = String "/" x) by (eexists; reflexivity).
  destruct (String.eqb (String "/" p) _); intros [= <- <-];
    unfold url.escaped.
  - exact Hd.
  - rewrite Hu. destruct (_ && _); [eauto | exact Hd].
Qed.

Lemma parse_fields (r : string) (u : url.URL) :
  url.parse r = (Some u, None) ->
  url.Scheme u = "https" /\ url.Host u = "s3.amazonaws.com"
  /\ exists x, url.EscapedPath u = String "/" x.
Proof.
  unfold url.parse. destruct (url.stringContainsCTLByte r); [discriminate|].
  destruct (strings.HasSuffix "?" r && (strings.Count "?" r =? 1)%nat);
    [set (p := strings.drop_last r)
    |destruct (strings.Cut "?" r) as [p q]].
  all: destruct (url.setEncoded (String "/" p) url.encodePath)
    as [[path raw] [x|]] eqn:Hs; [discriminate|].
  all: intros [= <-]; split; [reflexivity|]; split; [reflexivity|].
  all: apply (escaped_on_slash p); exact Hs.
Qed.

(** Whatever [url.Parse] returns on an endpoint URL prints as an endpoint
    URL again, so [http.NewRequest] stays within the modelled URLs. *)
Lemma URL_String_on_endpoint (rest : string) (u : url.URL) :
  url.Parse (url.endpoint +:+ rest) = (Some u, None) ->
  exists rest', url.URL_String u = url.endpoint +:+ rest'.
Proof.
  unfold url.Parse. rewrite CutPrefix_append.
  destruct (strings.Cut "#" rest) as [r frag].
  destruct (url.parse r) as [[u0|] [x|]] eqn:Hp; try discriminate.
  destruct (parse_fields r u0 Hp) as (Hs & Hh & y & Hy).
  assert (H : forall f rawf,
             exists rest',
               url.URL_String
                 (url.mkURL (url.Scheme u0) (url.Host u0) (url.Path u0)
                    (url.RawPath u0) (url.ForceQuery u0) (url.RawQuery u0)
                    f rawf)
               = url.endpoint +:+ rest').
  { intros f rawf. unfold url.URL_String.
    change (url.EscapedPath (url.mkURL _ _ _ _ _ _ _ _))
      with (url.EscapedPath u0).
    cbn [url.Scheme url.Host]. rewrite Hy, Hs, Hh.
    eexists. reflexivity. }
  destruct (String.eqb frag "").
  - intros [= <-]. destruct u0. apply (H _ _).
  - destruct (url.setEncoded frag url.encodeFragment) as [[f rawf] [x|]];
      [discriminate|].
    intros [= <-]. apply H.
Qed.

(** *** What each operation does *)

Ltac run_monad :=
  cbv beta iota zeta
    delta [mbind M_bind bind time_Now ret RoundTrip emit defer panic];
  cbn [ticks trace fst snd].

(** [get] reads the clock once, issues exactly one request, and maps the
    transport result to its own. *)
Lemma get_run (auth : Auth) (req : GetRequest) (w : World) :
  exists u sig,
    createURL (GetRequest_Object req) = (Some u, None)
    /\ signGet (url.Path u) auth (clock (ticks w)) = (sig, None)
    /\ let hreq :=
         http.Header_Add
           (http.Header_Add (http.mkRequest "GET" u ∅ http.NoBody 0)
              "Date" (format (clock (ticks w))))
           "Authorization" ("AWS " +:+ AccessKey auth +:+ ":" +:+ sig) in
       get auth req w
       = (Ret match transport hreq with
              | inr err => (None, Some err)
              | inl resp =>
                  if negb (http.StatusCode resp =? 200)
                  then (None, Some (errors_New (http.Status resp)))
                  else (Some (http.RespBody resp), None)
              end,
          mkWorld (S (ticks w)) (trace w ++ [EvNow; EvRoundTrip hreq])).
Proof.
  destruct (createURL_spec (GetRequest_Object req))
    as (u & Hu & _ & _ & _ & Hreq).
  pose proof (sign_spec auth
    ("GET" +:+ N +:+ N +:+ N +:+ format (clock (ticks w)) +:+ N
       +:+ url.Path u)) as Hs.
  set (sig := base64.EncodeToString _) in Hs. clearbody sig.
  exists u, sig. split; [exact Hu|]. split; [exact Hs|].
  intros hreq. unfold get. rewrite Hu. run_monad.
  unfold signGet. rewrite Hs, (Hreq "GET" http.NoBody).
  run_monad. fold hreq. rewrite <- app_assoc.
  destruct (transport hreq) as [resp|err]; [|reflexivity].
  destruct (negb (http.StatusCode resp =? 200)); reflexivity.
Qed.

(** [del] reads the clock once, issues exactly one request, closes the
    response body when there is a response, and succeeds exactly on the
    status codes from 200 to 299. *)
Lemma del_run (auth : Auth) (req : DeleteRequest) (w : World) :
  exists u sig,
    createURL (DeleteRequest_Object req) = (Some u, None)
    /\ signDelete (url.Path u) auth (clock (ticks w)) = (sig, None)
    /\ let hreq :=
         http.Header_Add
           (http.Header_Add (http.mkRequest "DELETE" u ∅ http.NoBody 0)
              "Date" (format (clock (ticks w))))
           "Authorization" ("AWS " +:+ AccessKey auth +:+ ":" +:+ sig) in
       del auth req w
       = (Ret match transport hreq with
              | inr err => Some err
              | inl resp =>
                  if (http.StatusCode resp <? 200)
                     || (300 <=? http.StatusCode resp)
                  then Some (errors_New (http.Status resp))
                  else None
              end,
          mkWorld (S (ticks w))
            (trace w ++ [EvNow; EvRoundTrip hreq]
               ++ match transport hreq with
                  | inl _ => [EvCloseBody]
                  | inr _ => []
                  end)).
Proof.
  destruct (createURL_spec (DeleteRequest_Object req))
    as (u & Hu & _ & _ & _ & Hreq).
  pose proof (sign_spec auth
    ("DELETE" +:+ N +:+ N +:+ N +:+ format (clock (ticks w)) +:+ N
       +:+ url.Path u)) as Hs.
  set (sig := base64.EncodeToString _) in Hs. clearbody sig.
  exists u, sig. split; [exact Hu|]. split; [exact Hs|].
  intros hreq. unfold del. rewrite Hu. run_monad.
  unfold signDelete. rewrite Hs, (Hreq "DELETE" http.NoBody).
  run_monad. fold hreq.
  destruct (transport hreq) as [resp|err].
  - destruct ((http.StatusCode resp <? 200) || (300 <=? http.StatusCode resp));
      run_monad; rewrite <- !app_assoc; reflexivity.
  - rewrite <- !app_assoc. reflexivity.
Qed.

Lemma putObject_run (auth : Auth) (req : PutObjectRequest) (w : World) :
  exists u sig,
    let ct := resolved_type (PutObjectRequest_ContentType req)
                (Key (PutObjectRequest_Object req)) in
    createURL (PutObjectRequest_Object req) = (Some u, None)
    /\ signPut (url.Path u) ct auth (clock (ticks w)) = (sig, None)
    /\ let hreq :=
         put_request u (http.BufferBody (Data req))
           (Z.of_nat (length (Data req))) (format (clock (ticks w))) ct
           auth sig in
       putObject auth req w
       = (Ret (put_result (transport hreq)),
          mkWorld (S (ticks w))
            (trace w ++ [EvNow; EvRoundTrip hreq]
               ++ match transport hreq with
                  | inl _ => [EvCloseBody]
                  | inr _ => []
                  end)).
Proof.
  destruct (createURL_spec (PutObjectRequest_Object req))
    as (u & Hu & _ & _ & _ & Hreq).
  set (ct := resolved_type _ _).
  pose proof (sign_spec auth
    ("PUT" +:+ N +:+ N +:+ ct +:+ N +:+ format (clock (ticks w)) +:+ N
       +:+ url.Path u)) as Hs.
  set (sig := base64.EncodeToString _) in Hs. clearbody sig.
  exists u, sig. split; [exact Hu|]. split; [exact Hs|].
  intros hreq. unfold putObject. rewrite Hu. run_monad.
  rewrite (Hreq "PUT" (http.BufferBody (Data req))).
  fold (resolved_type (PutObjectRequest_ContentType req)
          (Key (PutObjectRequest_Object req))). fold ct.
  unfold signPut. rewrite Hs. run_monad.
  fold (put_request u (http.BufferBody (Data req))
          (Z.of_nat (length (Data req))) (format (clock (ticks w))) ct
          auth sig). fold hreq.
  destruct (transport hreq) as [resp|err].
  - unfold put_result.
    destruct (negb (http.StatusCode resp =? 200));
      run_monad; rewrite <- !app_assoc; reflexivity.
  - rewrite <- !app_assoc. reflexivity.
Qed.

Lemma put_run (auth : Auth) (req : PutRequest) (w : World) :
  exists u sig,
    let ct := resolved_type (PutRequest_ContentType req)
                (Key (PutRequest_Object req)) in
    createURL (PutRequest_Object req) = (Some u, None)
    /\ signPut (url.Path u) ct auth (clock (ticks w)) = (sig, None)
    /\ put auth req w
       = match CreateReader (ReaderFact req) with
         | inr err =>
             (Ret (Some err),
              mkWorld (S (ticks w)) (trace w ++ [EvNow; EvCreateReader]))
         | inl reader =>
             let hreq :=
               put_request u (http.ReaderBody reader)
                 (Len (ReaderFact req)) (format (clock (ticks w))) ct
                 auth sig in
             (Ret (put_result (transport hreq)),
              mkWorld (S (ticks w))
                (trace w ++ [EvNow; EvCreateReader; EvRoundTrip hreq]
                   ++ match transport hreq with
                      | inl _ => [EvCloseBody]
                      | inr _ => []
                      end ++ [EvCloseReader]))
         end.
Proof.
  destruct (createURL_spec (PutRequest_Object req))
    as (u & Hu & _ & _ & _ & Hreq).
  set (ct := resolved_type _ _).
  pose proof (sign_spec auth
    ("PUT" +:+ N +:+ N +:+ ct +:+ N +:+ format (clock (ticks w)) +:+ N
       +:+ url.Path u)) as Hs.
  set (sig := base64.EncodeToString _) in Hs. clearbody sig.
  exists u, sig. split; [exact Hu|]. split; [exact Hs|].
  unfold put. rewrite Hu. run_monad.
  destruct (CreateReader (ReaderFact req)) as [reader|err].
  - rewrite (Hreq "PUT" (http.ReaderBody reader)).
    fold (resolved_type (PutRequest_ContentType req)
            (Key (PutRequest_Object req))). fold ct.
    unfold signPut. rewrite Hs. run_monad.
    fold (put_request u (http.ReaderBody reader)
            (Len (ReaderFact req)) (format (clock (ticks w))) ct auth sig).
    set (hreq := put_request _ _ _ _ _ _ _).
    destruct (transport hreq) as [resp|err].
    + unfold put_result.
      destruct (negb (http.StatusCode resp =? 200));
        run_monad; rewrite <- !app_assoc; reflexivity.
    + run_monad. rewrite <- !app_assoc. reflexivity.
  - run_monad. rewrite <- !app_assoc. reflexivity.
Qed.

Lemma NewRequest_Some (method urlStr : string) (b : http.body)
    (r : http.Request) :
  http.NewRequest method urlStr b = (Some r, None) ->
  http.Method r = method /\ http.Header r = ∅ /\ http.Body r = b.
Proof.
  unfold http.NewRequest.
  destruct (url.Parse urlStr) as [[u|] [e|]]; intros [= <-]; auto.
Qed.

(** The result [list] makes of what the transport answers. *)
Lemma list_run (auth : Auth) (req : ListRequest) (w : World) :
  (ListRequest_Bucket req = ""
   /\ list auth req w = (Ret (zero, Some (errors_New "no bucket name")), w))
  \/ (ListRequest_Bucket req <> ""
      /\ ((exists msg,
             list auth req w
             = (Panic msg, mkWorld (S (ticks w)) (trace w ++ [EvNow])))
          \/ (exists err,
                list auth req w
                = (Ret (zero, err),
                   mkWorld (S (ticks w)) (trace w ++ [EvNow])))
          \/ (exists path sig hreq0,
                signList path auth (clock (ticks w)) = (sig, None)
                /\ http.Method hreq0 = "GET" /\ http.Header hreq0 = ∅
                /\ let hreq :=
                     http.Header_Add
                       (http.Header_Add hreq0 "Date"
                          (format (clock (ticks w))))
                       "Authorization"
                       ("AWS " +:+ AccessKey auth +:+ ":" +:+ sig) in
                   list auth req w
                   = (Ret match transport hreq with
                          | inr err => (zero, Some err)
                          | inl resp =>
                              if negb (http.StatusCode resp =? 200)
                              then (zero,
                                    Some (errors_New (http.Status resp)))
                              else
                                match snd (http.RespBody resp) with
                                | Some e => (zero, Some e)
                                | None =>
                                    (fst (xml_Unmarshal
                                            (fst (http.RespBody resp)) zero),
                                     None)
                                end
                          end,
                      mkWorld (S (ticks w))
                        (trace w ++ [EvNow; EvRoundTrip hreq]
                           ++ match transport hreq with
                              | inl _ => [EvCloseBody]
                              | inr _ => []
                              end))))).
Proof.
  unfold list.
  destruct (String.eqb (ListRequest_Bucket req) "") eqn:Hb.
  { left. apply String.eqb_eq in Hb. split; [exact Hb | reflexivity]. }
  right. apply String.eqb_neq in Hb. split; [exact Hb|].
  destruct (url.Parse _) as [[u|] e0]; run_monad.
  2: { left. eexists. reflexivity. }
  right.
  pose proof (sign_spec auth
    ("GET" +:+ N +:+ N +:+ N +:+ format (clock (ticks w)) +:+ N
       +:+ url.Path u)) as Hs.
  set (sig := base64.EncodeToString _) in Hs. clearbody sig.
  change (sign auth _) with (signList (url.Path u) auth (clock (ticks w)))
    in Hs.
  rewrite Hs.
  destruct (http.NewRequest "GET" (url.URL_String u) http.NoBody)
    as [[hreq0|] [e|]] eqn:HN; run_monad.
  1, 3, 4: left; eexists; reflexivity.
  right. destruct (NewRequest_Some _ _ _ _ HN) as (Hm & Hh & _).
  exists (url.Path u), sig, hreq0.
  split; [exact Hs|]. split; [exact Hm|]. split; [exact Hh|].
  cbv zeta. set (hreq := http.Header_Add _ "Authorization" _).
  destruct (transport hreq) as [resp|err].
  - destruct (negb (http.StatusCode resp =? 200));
      [run_monad; rewrite <- ?app_assoc; reflexivity|].
    unfold http.io_Copy. destruct (http.RespBody resp) as [buf [e|]].
    + run_monad. rewrite <- ?app_assoc. reflexivity.
    + cbn [fst snd]. destruct (xml_Unmarshal buf zero) as [out e].
      run_monad. rewrite <- ?app_assoc. reflexivity.
  - rewrite <- ?app_assoc. reflexivity.
Qed.

(** *** Headers *)

Lemma Header_Add_lookup (r : http.Request) (k v k' : string) :
  http.Header (http.Header_Add r k v) !! k'
  = if decide (k = k')
    then Some (default [] (http.Header r !! k) ++ [v])
    else http.Header r !! k'.
Proof. unfold http.Header_Add. cbn [http.Header]. apply lookup_insert. Qed.

Lemma Header_set_ContentLength (r : http.Request) (n : Z) :
  http.Header (http.set_ContentLength r n) = http.Header r.
Proof. reflexivity. Qed.


Lemma put_request_headers (u : url.URL) (b : http.body) (n : Z)
    (date ct : string) (auth : Auth) (sig : string) :
  let hreq := put_request u b n date ct auth sig in
  http.Header hreq !! "Date" = Some [date]
  /\ http.Header hreq !! "Authorization"
     = Some ["AWS " +:+ AccessKey auth +:+ ":" +:+ sig]
  /\ http.Header hreq !! "Content-Type" = Some [ct]
  /\ http.Header hreq !! "Content-Length" = Some [utf8.string_of_int n]
  /\ http.ContentLength hreq = n
  /\ http.Method hreq = "PUT".
Proof.
  unfold put_request.
  rewrite !Header_Add_lookup, Header_set_ContentLength, !Header_Add_lookup.
  repeat split; reflexivity.
Qed.

(** *** Properties of the signer and of the operations *)

(** C9: [sign] fails only on internal encoding errors, which never occur:
    for every secret key and every string to sign it returns a signature
    together with a nil error; neither the HMAC write nor the in-memory
    base64 encoder can take its error branch. *)
Theorem sign_never_fails (a : Auth) (toSign : string) :
  exists signature,
    sign a toSign = (signature, None)
    /\ signature
       = base64.EncodeToString
           (hmac.hmac_sha1 (bytes.of_string (SecretKey a))
              (bytes.of_string toSign))
    /\ snd (snd (hmac.Write (E := error)
                   (hmac.New (bytes.of_string (SecretKey a)))
                   (bytes.of_string toSign))) = None
    /\ (forall sig : Datatypes.list Z,
          snd (snd (encoder.Write (E := error) (encoder.New []) sig)) = None
          /\ snd (encoder.Close
                    (fst (encoder.Write (E := error) (encoder.New []) sig)))
             = None).
Proof.
  eexists. split; [apply sign_spec|]. split; [reflexivity|].
  split; [reflexivity|]. intros sig.
  destruct (encoder_Write_Close sig) as (e & n & e' & HW & HC & _).
  rewrite HW. cbn [fst snd]. rewrite HC. split; reflexivity.
Qed.

Lemma format_unix (t1 t2 : time.Time) :
  time.unix t1 = time.unix t2 -> format t1 = format t2.
Proof.
  intros H. unfold format, time.Format_RFC1123Z, time.UTC.
  cbn [time.unix time.offset]. now rewrite H.
Qed.

Lemma sign_secret (a1 a2 : Auth) (s : string) :
  SecretKey a1 = SecretKey a2 -> sign a1 s = sign a2 s.
Proof. intros H. now rewrite !sign_spec, H. Qed.

(** C5: for a fixed secret, verb, content type, timestamp and path the
    string that is signed and the signature are determined: two runs of
    the signing functions whose inputs agree on these (whatever the access
    key, and whatever the location and the nanoseconds of the instant)
    return the same base64 output. *)
Theorem sign_deterministic (a1 a2 : Auth) (t1 t2 : time.Time)
    (path ct : string) :
  SecretKey a1 = SecretKey a2 ->
  time.unix t1 = time.unix t2 ->
  signGet path a1 t1 = signGet path a2 t2
  /\ signList path a1 t1 = signList path a2 t2
  /\ signDelete path a1 t1 = signDelete path a2 t2
  /\ signPut path ct a1 t1 = signPut path ct a2 t2.
Proof.
  intros Hk Ht. unfold signGet, signList, signDelete, signPut.
  rewrite (format_unix t1 t2 Ht).
  repeat split; now apply sign_secret.
Qed.

(** C7: a [list] call whose bucket name is empty fails with the error
    "no bucket name" and the zero result before anything else happens:
    the clock is not read and no request is built or issued, so the world
    is left as it was. *)
Theorem list_empty_bucket (auth : Auth) (req : ListRequest) (w : World) :
  ListRequest_Bucket req = "" ->
  list auth req w = (Ret (zero, Some (errors_New "no bucket name")), w).
Proof. intros H. unfold list. rewrite H. reflexivity. Qed.


Ltac issued H :=
  cbn [requests app trace snd fst In] in H;
  destruct H as [H | []].

(** C6: [del] treats every status from 200 to 299 as success, 204 among
    them, and every other status as a failure that carries the status
    text of the response; a 404 with status text "404 Not Found" yields
    the error "404 Not Found". *)
Theorem del_status (auth : Auth) (req : DeleteRequest) (n : nat)
    (hreq : http.Request) (resp : http.Response) :
  In hreq (requests (trace (snd (del auth req (mkWorld n []))))) ->
  transport hreq = inl resp ->
  fst (del auth req (mkWorld n []))
  = Ret (if (200 <=? http.StatusCode resp) && (http.StatusCode resp <? 300)
         then None
         else Some (errors_New (http.Status resp)))
  /\ (http.StatusCode resp = 204 ->
      fst (del auth req (mkWorld n [])) = Ret None)
  /\ (http.StatusCode resp = 404 ->
      http.Status resp = "404 Not Found" ->
      fst (del auth req (mkWorld n []))
      = Ret (Some (errorString "404 Not Found"))).
Proof.
  intros Hin Ht.
  destruct (del_run auth req (mkWorld n [])) as (u & sig & _ & _ & Hrun).
  cbv zeta in Hrun. rewrite Hrun in *. clear Hrun.
  set (h := http.Header_Add _ "Authorization" _) in *.
  assert (h = hreq) as ->.
  { destruct (transport h); issued Hin; exact Hin. }
  rewrite Ht. cbn [fst].
  assert (E : (http.StatusCode resp <? 200) || (300 <=? http.StatusCode resp)
              = negb ((200 <=? http.StatusCode resp)
                      && (http.StatusCode resp <? 300))).
  { destruct (Z.ltb_spec (http.StatusCode resp) 200),
             (Z.leb_spec 300 (http.StatusCode resp)),
             (Z.leb_spec 200 (http.StatusCode resp)),
             (Z.ltb_spec (http.StatusCode resp) 300); try reflexivity; lia. }
  rewrite E.
  split; [destruct (_ && _); reflexivity|].
  split; [intros ->; reflexivity | intros -> ->; reflexivity].
Qed.

(** C8, as amended: when the response to a [list] has status 200 and a
    body that fails XML decoding, the decode error is discarded and the
    call returns, with a nil error, the result as the decoder left it
    (the zero value if the decoder stored nothing before failing). *)
Theorem list_decode_error_discarded (auth : Auth) (req : ListRequest)
    (n : nat) (hreq : http.Request) (resp : http.Response)
    (out : ListBucketResult) (e : error) :
  In hreq (requests (trace (snd (list auth req (mkWorld n []))))) ->
  transport hreq = inl resp ->
  http.StatusCode resp = 200 ->
  snd (http.RespBody resp) = None ->
  xml_Unmarshal (fst (http.RespBody resp)) zero = (out, Some e) ->
  fst (list auth req (mkWorld n [])) = Ret (out, None)
  /\ (out = zero -> fst (list auth req (mkWorld n [])) = Ret (zero, None)).
Proof.
  intros Hin Ht Hc Hb Hx.
  assert (H : fst (list auth req (mkWorld n [])) = Ret (out, None)).
  { destruct (list_run auth req (mkWorld n []))
      as [[_ Hl] | [_ [[msg Hl] | [[err Hl]
          | (path & sig & hreq0 & _ & _ & _ & Hl)]]]].
    1-3: rewrite Hl in Hin; cbn [requests app trace snd] in Hin;
         destruct Hin.
    cbv zeta in Hl. rewrite Hl in *. clear Hl.
    set (h := http.Header_Add _ "Authorization" _) in *.
    assert (h = hreq) as ->.
    { destruct (transport h); issued Hin; exact Hin. }
    rewrite Ht, Hc, Hb, Hx. reflexivity. }
  split; [exact H | intros <-; exact H].
Qed.


Lemma escape_append (a b : string) (mode : url.encoding) :
  url.escape (a +:+ b) mode = url.escape a mode +:+ url.escape b mode.
Proof.
  induction a as [|c a IH]; [reflexivity|].
  rewrite append_cons, (escape_cons c a), (escape_cons c (a +:+ b)), IH.
  now rewrite append_assoc.
Qed.

Lemma QueryEscape_plain_byte (c : ascii) :
  url.plain c = true ->
  url.QueryEscape (String c "")
  = String (if Ascii.eqb c " " then "+"%char else c) "".
Proof. each_byte c; vm_compute; intros H; try discriminate H; reflexivity. Qed.

Lemma QueryEscape_plain (s : string) :
  strings.all url.plain s = true -> url.QueryEscape s = plus s.
Proof.
  unfold url.QueryEscape, plus.
  induction s as [|c s IH]; [reflexivity|].
  cbn [strings.all strings.Map]. intros [Hc Hs]%andb_prop.
  rewrite escape_cons, (IH Hs).
  now rewrite (QueryEscape_plain_byte c Hc : url.escape _ _ = _).
Qed.

(** C2, as amended: the URL of an object is built with [url.QueryEscape],
    which turns a space of the key into [+] (not [%20]); the path of the
    request, that of the URL [http.NewRequest] is given, is the escaped
    bucket and key, [/esc(bucket)/esc(key)]; and for buckets and keys made
    of unreserved bytes and spaces the path that is signed, [u.Path], is
    exactly the path of the request. *)
Theorem object_paths (o : Object) :
  exists u,
    createURL o = (Some u, None)
    /\ url.EscapedPath u
       = "/" +:+ url.QueryEscape (Bucket o) +:+ "/"
           +:+ url.QueryEscape (Key o)
    /\ (forall a b : string,
          Key o = a +:+ " " +:+ b ->
          esc (Key o) = esc a +:+ "+" +:+ esc b)
    /\ (forall (method : string) (b : http.body),
          exists hreq,
            http.NewRequest method (url.URL_String u) b = (Some hreq, None)
            /\ http.URL hreq = u)
    /\ (strings.all url.plain (Bucket o) = true ->
        strings.all url.plain (Key o) = true ->
        url.Path u = url.EscapedPath u).
Proof.
  destruct (createURL_spec o) as (u & Hu & HP & HE & _ & HN).
  exists u. split; [exact Hu|]. split; [exact HE|]. split; [|split].
  - intros a b ->. unfold esc, url.QueryEscape.
    now rewrite !escape_append.
  - intros method b. eexists. split; [apply HN | reflexivity].
  - intros Hb Hk. rewrite HP, HE. unfold esc.
    now rewrite (QueryEscape_plain _ Hb), (QueryEscape_plain _ Hk).
Qed.

(** *** Further properties of the operations *)

(** X1: [get] always issues exactly one request and never closes the
    response body; it hands the open body to the caller exactly when the
    status code is 200, fails with the status text for any other code
    (204 included), and passes a transport error on unchanged. *)
Theorem get_result (auth : Auth) (req : GetRequest) (n : nat) :
  exists hreq,
    trace (snd (get auth req (mkWorld n []))) = [EvNow; EvRoundTrip hreq]
    /\ fst (get auth req (mkWorld n []))
       = Ret match transport hreq with
             | inr err => (None, Some err)
             | inl resp =>
                 if http.StatusCode resp =? 200
                 then (Some (http.RespBody resp), None)
                 else (None, Some (errors_New (http.Status resp)))
             end.
Proof.
  destruct (get_run auth req (mkWorld n [])) as (u & sig & _ & _ & Hrun).
  cbv zeta in Hrun. rewrite Hrun. eexists. split; [reflexivity|].
  cbn [fst]. destruct (transport _) as [resp|err]; [|reflexivity].
  destruct (http.StatusCode resp =? 200); reflexivity.
Qed.

Lemma getObject_bind (auth : Auth) (req : GetRequest) (w : World) :
  getObject auth req w
  = match get auth req w with
    | (Ret (Some r, None), w') =>
        (Ret match snd r with
             | Some e => (None, Some e)
             | None => (Some (fst r), None)
             end, w')
    | (Ret (Some _, Some e), w') => (Ret (None, Some e), w')
    | (Ret (None, err), w') => (Ret (None, err), w')
    | (Panic msg, w') => (Panic msg, w')
    end.
Proof.
  unfold getObject. run_monad.
  destruct (get auth req w) as [[[[r|] [e|]]|msg] w']; try reflexivity.
  unfold http.io_Copy. destruct r as [buf [e|]]; reflexivity.
Qed.

(** X2: [getObject] is [get] followed by reading the whole body: it
    returns the bytes of the body when the status is 200 and the body
    reads to its end, returns a read error without any bytes, returns the
    errors of [get] unchanged, and never closes the response body. *)
Theorem getObject_result (auth : Auth) (req : GetRequest) (n : nat) :
  exists hreq,
    trace (snd (getObject auth req (mkWorld n [])))
    = [EvNow; EvRoundTrip hreq]
    /\ closes (trace (snd (getObject auth req (mkWorld n [])))) = O
    /\ fst (getObject auth req (mkWorld n []))
       = Ret match transport hreq with
             | inr err => (None, Some err)
             | inl resp =>
                 if http.StatusCode resp =? 200
                 then match snd (http.RespBody resp) with
                      | Some e => (None, Some e)
                      | None => (Some (fst (http.RespBody resp)), None)
                      end
                 else (None, Some (errors_New (http.Status resp)))
             end.
Proof.
  destruct (get_run auth req (mkWorld n [])) as (u & sig & _ & _ & Hrun).
  cbv zeta in Hrun. rewrite getObject_bind, Hrun. clear Hrun.
  set (h := http.Header_Add _ "Authorization" _).
  exists h.
  destruct (transport h) as [resp|err]; [|repeat split; reflexivity].
  destruct (http.StatusCode resp =? 200); repeat split; reflexivity.
Qed.

(** The shape of every run from an empty trace: either nothing was sent,
    or exactly one request was, after one reading of the clock. *)
Lemma run_shape (auth : Auth) (op : Op) (n : nat) :
  (requests (trace (snd (run auth op (mkWorld n [])))) = []
   /\ closes (trace (snd (run auth op (mkWorld n [])))) = O
   /\ (ticks (snd (run auth op (mkWorld n []))) <= S n)%nat)
  \/ exists hreq,
       requests (trace (snd (run auth op (mkWorld n [])))) = [hreq]
       /\ ticks (snd (run auth op (mkWorld n []))) = S n
       /\ closes (trace (snd (run auth op (mkWorld n []))))
          = match op, transport hreq with
            | OpGet _, _ => O
            | _, inl _ => 1%nat
            | _, inr _ => O
            end
       /\ (forall err,
             transport hreq = inr err ->
             fst (run auth op (mkWorld n [])) = Ret (Some err)).
Proof.
  destruct op as [req|req|req|req|req]; unfold run.
  - unfold mbind, M_bind, bind.
    destruct (list_run auth req (mkWorld n []))
      as [[_ Hl] | [_ [[msg Hl] | [[err Hl]
          | (path & sig & hreq0 & _ & _ & _ & Hl)]]]].
    1-3: left; rewrite Hl; cbn; repeat split; lia.
    right. cbv zeta in Hl. rewrite Hl. clear Hl.
    set (h := http.Header_Add _ "Authorization" _). exists h.
    unfold ret. cbn [fst snd ticks trace].
    destruct (transport h) as [resp|err] eqn:Ht;
      (split; [reflexivity|]); (split; [reflexivity|]);
      (split; [reflexivity|]); intros e [= <-]; reflexivity.
  - unfold mbind, M_bind, bind. right.
    destruct (get_run auth req (mkWorld n [])) as (u & sig & _ & _ & Hl).
    cbv zeta in Hl. rewrite Hl. clear Hl.
    set (h := http.Header_Add _ "Authorization" _). exists h.
    unfold ret. cbn [fst snd ticks trace].
    split; [reflexivity|]. split; [reflexivity|].
    split; [destruct (transport h); reflexivity|].
    intros e ->. reflexivity.
  - right.
    destruct (del_run auth req (mkWorld n [])) as (u & sig & _ & _ & Hl).
    cbv zeta in Hl. rewrite Hl. clear Hl.
    set (h := http.Header_Add _ "Authorization" _). exists h.
    cbn [fst snd ticks trace].
    destruct (transport h) as [resp|err] eqn:Ht;
      (split; [reflexivity|]); (split; [reflexivity|]);
      (split; [reflexivity|]); intros e [= <-]; reflexivity.
  - destruct (put_run auth req (mkWorld n [])) as (u & sig & Hl).
    cbv zeta in Hl. destruct Hl as (_ & _ & Hl). rewrite Hl. clear Hl.
    destruct (CreateReader (ReaderFact req)) as [reader|err];
      [right | left; cbn; repeat split; lia].
    set (h := put_request _ _ _ _ _ _ _). exists h.
    cbn [fst snd ticks trace].
    destruct (transport h) as [resp|err] eqn:Ht;
      (split; [reflexivity|]); (split; [reflexivity|]);
      (split; [reflexivity|]); intros e [= <-]; reflexivity.
  - right.
    destruct (putObject_run auth req (mkWorld n [])) as (u & sig & Hl).
    cbv zeta in Hl. destruct Hl as (_ & _ & Hl). rewrite Hl. clear Hl.
    set (h := put_request _ _ _ _ _ _ _). exists h.
    cbn [fst snd ticks trace].
    destruct (transport h) as [resp|err] eqn:Ht;
      (split; [reflexivity|]); (split; [reflexivity|]);
      (split; [reflexivity|]); intros e [= <-]; reflexivity.
Qed.

(** X3: no operation retries: from an empty trace every operation hands
    at most one request to the transport and reads the clock at most
    once, and an error of the transport is returned to the caller
    unchanged. *)
Theorem single_attempt (auth : Auth) (op : Op) (n : nat) :
  (length (requests (trace (snd (run auth op (mkWorld n []))))) <= 1)%nat
  /\ (ticks (snd (run auth op (mkWorld n []))) <= S n)%nat
  /\ (forall hreq err,
        In hreq (requests (trace (snd (run auth op (mkWorld n []))))) ->
        transport hreq = inr err ->
        fst (run auth op (mkWorld n [])) = Ret (Some err)).
Proof.
  destruct (run_shape auth op n)
    as [(Hr & _ & Ht) | (h & Hr & Ht & _ & He)]; rewrite Hr.
  - split; [cbn; lia|]. split; [exact Ht|]. intros hreq err [].
  - split; [cbn; lia|]. split; [lia|].
    intros hreq err [<- | []]. apply He.
Qed.

(** X4: [list], [del], [put] and [putObject] close the response body
    exactly once when the transport returned a response and never
    otherwise; [get] never closes it, the open body belongs to the
    caller. *)
Theorem body_closed_once (auth : Auth) (op : Op) (n : nat) :
  closes (trace (snd (run auth op (mkWorld n []))))
  = match requests (trace (snd (run auth op (mkWorld n [])))) with
    | hreq :: _ =>
        match op, transport hreq with
        | OpGet _, _ => O
        | _, inl _ => 1%nat
        | _, inr _ => O
        end
    | [] => O
    end.
Proof.
  destruct (run_shape auth op n)
    as [(Hr & Hc & _) | (h & Hr & _ & Hc & _)]; rewrite Hr, Hc.
  - reflexivity.
  - reflexivity.
Qed.

(** X5: an object operation cannot fail before the network: whatever
    bytes the bucket and the key hold, [get], [del] and [putObject] hand
    exactly one request to the transport, and so does [put] once its
    reader could be created. *)
Theorem object_operations_reach_transport (auth : Auth) (n : nat) :
  (forall req,
      length (requests (trace (snd (get auth req (mkWorld n []))))) = 1%nat)
  /\ (forall req,
        length (requests (trace (snd (del auth req (mkWorld n [])))))
        = 1%nat)
  /\ (forall req,
        length (requests (trace (snd (putObject auth req (mkWorld n [])))))
        = 1%nat)
  /\ (forall req reader,
        CreateReader (ReaderFact req) = inl reader ->
        length (requests (trace (snd (put auth req (mkWorld n [])))))
        = 1%nat).
Proof.
  split; [|split; [|split]]; intros req.
  - destruct (get_run auth req (mkWorld n [])) as (u & sig & _ & _ & Hl).
    cbv zeta in Hl. rewrite Hl. reflexivity.
  - destruct (del_run auth req (mkWorld n [])) as (u & sig & _ & _ & Hl).
    cbv zeta in Hl. rewrite Hl. destruct (transport _); reflexivity.
  - destruct (putObject_run auth req (mkWorld n [])) as (u & sig & Hl).
    cbv zeta in Hl. destruct Hl as (_ & _ & Hl). rewrite Hl.
    destruct (transport _); reflexivity.
  - intros reader Hr.
    destruct (put_run auth req (mkWorld n [])) as (u & sig & Hl).
    cbv zeta in Hl. destruct Hl as (_ & _ & Hl). rewrite Hl, Hr.
    destruct (transport _); reflexivity.
Qed.

Lemma put_result_None (r : http.Response + error) :
  put_result r = None
  <-> exists resp, r = inl resp /\ http.StatusCode resp = 200.
Proof.
  unfold put_result. destruct r as [resp|err].
  - destruct (Z.eqb_spec (http.StatusCode resp) 200) as [E|E]; cbn [negb].
    + split; [eauto | reflexivity].
    + split; [discriminate | intros (r & [= <-] & Hc); contradiction].
  - split; [discriminate | intros (r & [=] & _)].
Qed.

(** X6: [putObject] and [put] succeed only on the status 200: they return
    a nil error exactly when the request they issued was answered with
    status code 200; any other code, 201 and 204 included (which [del]
    accepts), is a failure. *)
Theorem put_succeeds_on_200_only (auth : Auth) (n : nat) :
  (forall req,
      fst (putObject auth req (mkWorld n [])) = Ret None
      <-> exists hreq resp,
            requests (trace (snd (putObject auth req (mkWorld n []))))
            = [hreq]
            /\ transport hreq = inl resp /\ http.StatusCode resp = 200)
  /\ (forall req,
        fst (put auth req (mkWorld n [])) = Ret None
        <-> exists hreq resp,
              requests (trace (snd (put auth req (mkWorld n [])))) = [hreq]
              /\ transport hreq = inl resp /\ http.StatusCode resp = 200).
Proof.
  split; intros req.
  - destruct (putObject_run auth req (mkWorld n [])) as (u & sig & Hl).
    cbv zeta in Hl. destruct Hl as (_ & _ & Hl). rewrite Hl. clear Hl.
    set (h := put_request _ _ _ _ _ _ _). cbn [fst snd trace].
    assert (Hq : requests
                   ([] ++ [EvNow; EvRoundTrip h]
                       ++ match transport h with
                          | inl _ => [EvCloseBody]
                          | inr _ => []
                          end) = [h])
      by (destruct (transport h); reflexivity).
    rewrite Hq. split.
    + intros [= H]. apply put_result_None in H as (resp & Hr & Hc).
      exists h, resp. auto.
    + intros (hreq & resp & [= <-] & Ht & Hc). f_equal.
      apply put_result_None. eauto.
  - destruct (put_run auth req (mkWorld n [])) as (u & sig & Hl).
    cbv zeta in Hl. destruct Hl as (_ & _ & Hl). rewrite Hl. clear Hl.
    destruct (CreateReader (ReaderFact req)) as [reader|err].
    2: { cbn. split; [discriminate | intros (? & ? & [=] & _)]. }
    set (h := put_request _ _ _ _ _ _ _). cbn [fst snd trace].
    assert (Hq : requests
                   ([] ++ [EvNow; EvCreateReader; EvRoundTrip h]
                       ++ match transport h with
                          | inl _ => [EvCloseBody]
                          | inr _ => []
                          end ++ [EvCloseReader]) = [h])
      by (destruct (transport h); reflexivity).
    rewrite Hq. split.
    + intros [= H]. apply put_result_None in H as (resp & Hr & Hc).
      exists h, resp. auto.
    + intros (hreq & resp & [= <-] & Ht & Hc). f_equal.
      apply put_result_None. eauto.
Qed.

(** X7: [put] closes the stream it obtained exactly once, as its last
    action, whether the request succeeds or fails; when the factory cannot
    create the stream, [put] returns the factory's error without sending
    anything and without closing anything. *)
Theorem put_closes_reader (auth : Auth) (req : PutRequest) (n : nat) :
  (forall err,
      CreateReader (ReaderFact req) = inr err ->
      put auth req (mkWorld n [])
      = (Ret (Some err), mkWorld (S n) [EvNow; EvCreateReader]))
  /\ (forall reader,
        CreateReader (ReaderFact req) = inl reader ->
        exists pre hreq,
          trace (snd (put auth req (mkWorld n []))) = pre ++ [EvCloseReader]
          /\ reader_closes pre = O
          /\ requests pre = [hreq]
          /\ http.Body hreq = http.ReaderBody reader).
Proof.
  destruct (put_run auth req (mkWorld n [])) as (u & sig & Hl).
  cbv zeta in Hl. destruct Hl as (_ & _ & Hl). rewrite Hl. clear Hl.
  split.
  - intros err ->. reflexivity.
  - intros reader ->. set (h := put_request _ _ _ _ _ _ _).
    exists ([EvNow; EvCreateReader; EvRoundTrip h]
              ++ match transport h with
                 | inl _ => [EvCloseBody]
                 | inr _ => []
                 end), h.
    cbn [snd trace]. destruct (transport h); repeat split; reflexivity.
Qed.

Lemma resolved_type_cases (ct key : string) :
  resolved_type ct key
  = if String.eqb ct "" then TypeByExtension (filepath.Ext key) else ct.
Proof. destruct ct; reflexivity. Qed.

(** X8: the content type a put sends is the one it signs: the request
    carries the Content-Type header [ct] and the signature of the
    canonical string built with the same [ct], where [ct] is the caller's
    content type when that is not empty and otherwise the type the MIME
    table gives for the extension of the key. *)
Theorem put_content_type_signed (auth : Auth) (n : nat)
    (hreq : http.Request) :
  (forall req,
      In hreq (requests (trace (snd (putObject auth req (mkWorld n []))))) ->
      exists path sig,
        let ct :=
          if String.eqb (PutObjectRequest_ContentType req) ""
          then TypeByExtension
                 (filepath.Ext (Key (PutObjectRequest_Object req)))
          else PutObjectRequest_ContentType req in
        http.Header hreq !! "Content-Type" = Some [ct]
        /\ sign auth ("PUT" +:+ N +:+ N +:+ ct +:+ N
                        +:+ format (clock n) +:+ N +:+ path) = (sig, None)
        /\ http.Header hreq !! "Authorization"
           = Some ["AWS " +:+ AccessKey auth +:+ ":" +:+ sig])
  /\ (forall req,
        In hreq (requests (trace (snd (put auth req (mkWorld n []))))) ->
        exists path sig,
          let ct :=
            if String.eqb (PutRequest_ContentType req) ""
            then TypeByExtension (filepath.Ext (Key (PutRequest_Object req)))
            else PutRequest_ContentType req in
          http.Header hreq !! "Content-Type" = Some [ct]
          /\ sign auth ("PUT" +:+ N +:+ N +:+ ct +:+ N
                          +:+ format (clock n) +:+ N +:+ path) = (sig, None)
          /\ http.Header hreq !! "Authorization"
             = Some ["AWS " +:+ AccessKey auth +:+ ":" +:+ sig]).
Proof.
  split; intros req Hin.
  - destruct (putObject_run auth req (mkWorld n [])) as (u & sig & Hl).
    cbv zeta in Hl. destruct Hl as (_ & Hs & Hl). rewrite Hl in Hin.
    clear Hl. cbn [ticks trace snd] in *.
    set (h := put_request _ _ _ _ _ _ _) in *.
    assert (h = hreq) as <-.
    { destruct (transport h); issued Hin; exact Hin. }
    destruct (put_request_headers u (http.BufferBody (Data req))
                (Z.of_nat (length (Data req))) (format (clock n))
                (resolved_type (PutObjectRequest_ContentType req)
                   (Key (PutObjectRequest_Object req))) auth sig)
      as (_ & HA & HT & _).
    fold h in HA, HT. rewrite resolved_type_cases in Hs, HT.
    exists (url.Path u), sig. cbv zeta. auto.
  - destruct (put_run auth req (mkWorld n [])) as (u & sig & Hl).
    cbv zeta in Hl. destruct Hl as (_ & Hs & Hl). rewrite Hl in Hin.
    clear Hl.
    destruct (CreateReader (ReaderFact req)) as [reader|err];
      [|cbn [requests app trace snd] in Hin; destruct Hin].
    cbv zeta in Hin. cbn [ticks trace snd] in *.
    set (h := put_request _ _ _ _ _ _ _) in *.
    assert (h = hreq) as <-.
    { destruct (transport h); issued Hin; exact Hin. }
    destruct (put_request_headers u (http.ReaderBody reader)
                (Len (ReaderFact req)) (format (clock n))
                (resolved_type (PutRequest_ContentType req)
                   (Key (PutRequest_Object req))) auth sig)
      as (_ & HA & HT & _).
    fold h in HA, HT. rewrite resolved_type_cases in Hs, HT.
    exists (url.Path u), sig. cbv zeta. auto.
Qed.

(** X10: whenever [list] returns an error, the result beside it is the
    zero value: a failing transport, a status other than 200 and a body
    that cannot be read all leave the result untouched. *)
Theorem list_error_zero_result (auth : Auth) (req : ListRequest) (n : nat)
    (out : ListBucketResult) (e : error) :
  fst (list auth req (mkWorld n [])) = Ret (out, Some e) -> out = zero.
Proof.
  destruct (list_run auth req (mkWorld n []))
    as [[_ Hl] | [_ [[msg Hl] | [[err Hl]
        | (path & sig & hreq0 & _ & _ & _ & Hl)]]]].
  1-3: rewrite Hl; cbn [fst]; intros [= <-]; reflexivity.
  cbv zeta in Hl. rewrite Hl. clear Hl. cbn [fst].
  destruct (transport _) as [resp|err]; [|intros [= <-]; reflexivity].
  destruct (negb (http.StatusCode resp =? 200));
    [intros [= <-]; reflexivity|].
  destruct (snd (http.RespBody resp));
    [intros [= <-]; reflexivity | discriminate].
Qed.


Lemma sha1_Sum_length (msg : Datatypes.list Z) :
  exists b0 b1 b2 b3 b4 b5 b6 b7 b8 b9 b10 b11 b12 b13 b14 b15 b16 b17
         b18 b19,
    sha1.Sum msg
    = [b0; b1; b2; b3; b4; b5; b6; b7; b8; b9; b10; b11; b12; b13; b14;
       b15; b16; b17; b18; b19].
Proof.
  unfold sha1.Sum. cbv zeta. cbn [sha1.be_bytes app].
  repeat eexists.
Qed.

Lemma to_string_app (a b : Datatypes.list Z) :
  bytes.to_string (a ++ b) = bytes.to_string a +:+ bytes.to_string b.
Proof.
  unfold bytes.to_string. induction a as [|x a IH]; [reflexivity|].
  cbn [map app string_of_list_ascii]. rewrite append_cons. now rewrite IH.
Qed.

Lemma to_string_length (a : Datatypes.list Z) :
  String.length (bytes.to_string a) = length a.
Proof.
  unfold bytes.to_string. induction a as [|x a IH]; [reflexivity|].
  cbn [map string_of_list_ascii String.length length]. now rewrite IH.
Qed.

(** X12: a signature is always 28 bytes long and ends with the padding
    character [=]: it is the base64 form of a 20-byte digest, whatever the
    secret and the string to sign. *)
Theorem signature_shape (a : Auth) (toSign : string) :
  String.length (fst (sign a toSign)) = 28%nat
  /\ exists body, fst (sign a toSign) = body +:+ "=".
Proof.
  rewrite sign_spec. cbn [fst]. unfold hmac.hmac_sha1. cbv zeta.
  destruct (sha1_Sum_length
              (map (Z.lxor 92) (hmac.pad_key (bytes.of_string (SecretKey a)))
                 ++ sha1.Sum
                      (map (Z.lxor 54)
                         (hmac.pad_key (bytes.of_string (SecretKey a)))
                         ++ bytes.of_string toSign)))
    as (b0 & b1 & b2 & b3 & b4 & b5 & b6 & b7 & b8 & b9 & b10 & b11 & b12
        & b13 & b14 & b15 & b16 & b17 & b18 & b19 & ->).
  unfold base64.EncodeToString. cbn [base64.Encode].
  split; [now rewrite to_string_length|].
  match goal with
  | |- context [bytes.to_string
                  [?c0; ?c1; ?c2; ?c3; ?c4; ?c5; ?c6; ?c7; ?c8; ?c9; ?c10;
                   ?c11; ?c12; ?c13; ?c14; ?c15; ?c16; ?c17; ?c18; ?c19;
                   ?c20; ?c21; ?c22; ?c23; ?c24; ?c25; ?c26;
                   base64.padChar]] =>
      exists (bytes.to_string
                [c0; c1; c2; c3; c4; c5; c6; c7; c8; c9; c10; c11; c12; c13;
                 c14; c15; c16; c17; c18; c19; c20; c21; c22; c23; c24; c25;
                 c26]);
      change [c0; c1; c2; c3; c4; c5; c6; c7; c8; c9; c10; c11; c12; c13;
              c14; c15; c16; c17; c18; c19; c20; c21; c22; c23; c24; c25;
              c26; base64.padChar]
        with ([c0; c1; c2; c3; c4; c5; c6; c7; c8; c9; c10; c11; c12; c13;
               c14; c15; c16; c17; c18; c19; c20; c21; c22; c23; c24; c25;
               c26] ++ [base64.padChar])
  end.
  rewrite to_string_app. reflexivity.
Qed.

(** X13: the date a request carries always ends with the zone [+0000]:
    [format] converts the instant to UTC first, whatever its location. *)
Theorem format_zone (t : time.Time) :
  exists date, format t = date +:+ " +0000".
Proof.
  unfold format, time.Format_RFC1123Z, time.UTC.
  cbn [time.unix time.offset].
  destruct (time.civil _) as [[y m] d].
  change (if 0 / 60 <? 0 then "-" else "+") with "+".
  change (time.appendInt (Z.abs (0 / 60) / 60) 2) with "00".
  change (time.appendInt (Z.abs (0 / 60) mod 60) 2) with "00".
  change (" " +:+ "+" +:+ "00" +:+ "00") with (" +0000" +:+ "").
  rewrite <- !append_assoc. rewrite append_nil_r.
  eexists. reflexivity.
Qed.

Lemma mem_append (c : ascii) (a b : string) :
  strings.mem c (a +:+ b) = strings.mem c a || strings.mem c b.
Proof.
  induction a as [|x a IH]; [reflexivity|].
  rewrite append_cons. cbn [strings.mem]. now rewrite IH, orb_assoc.
Qed.

Lemma Ext_no_dot (e : string) :
  strings.mem "." e = false -> filepath.Ext e = "".
Proof.
  induction e as [|c e IH]; [reflexivity|].
  cbn [strings.mem filepath.Ext].
  intros [Hc He]%orb_false_elim. rewrite He, orb_false_r.
  rewrite Ascii.eqb_sym, Hc. destruct (strings.mem "/" e); auto.
Qed.

Lemma Ext_after_slash (p e : string) :
  strings.mem "." e = false -> filepath.Ext (p +:+ "/" +:+ e) = "".
Proof.
  intros He. induction p as [|c p IH].
  - change ("" +:+ "/" +:+ e) with (String "/" e).
    cbn [filepath.Ext]. rewrite He, orb_false_r.
    destruct (strings.mem "/" e); [now apply Ext_no_dot | reflexivity].
  - rewrite append_cons. cbn [filepath.Ext].
    rewrite (mem_append "/" p). change (strings.mem "/" ("/" +:+ e)) with true.
    rewrite orb_true_r. exact IH.
Qed.

Lemma Ext_after_dot (p e : string) :
  strings.mem "/" e = false -> strings.mem "." e = false ->
  filepath.Ext (p +:+ "." +:+ e) = "." +:+ e.
Proof.
  intros Hs He. induction p as [|c p IH].
  - change ("" +:+ "." +:+ e) with (String "." e).
    cbn [filepath.Ext]. rewrite Hs, He. reflexivity.
  - rewrite append_cons. cbn [filepath.Ext].
    rewrite (mem_append "." p). change (strings.mem "." ("." +:+ e)) with true.
    rewrite !orb_true_r. exact IH.
Qed.

(** X14: [mimeType] looks the type up by the last extension of the last
    path element only: a name ending in a dot and a suffix free of dots
    and slashes is looked up under that dot and suffix, and a name whose
    last element has no dot is looked up under the empty extension. *)
Theorem mimeType_by_last_extension (p e : string) :
  (strings.mem "/" e = false -> strings.mem "." e = false ->
   mimeType (p +:+ "." +:+ e) = TypeByExtension ("." +:+ e))
  /\ (strings.mem "." e = false ->
      mimeType (p +:+ "/" +:+ e) = TypeByExtension ""
      /\ mimeType e = TypeByExtension "").
Proof.
  unfold mimeType. split.
  - intros Hs He. now rewrite Ext_after_dot.
  - intros He. now rewrite Ext_after_slash, Ext_no_dot.
Qed.

Lemma unescape_query_byte (c : ascii) (r t : string) :
  url.unescape r url.encodeQueryComponent = (t, None) ->
  url.unescape (url.QueryEscape (String c "") +:+ r)
    url.encodeQueryComponent
  = (String c t, None).
Proof.
  intros H.
  each_byte c;
    match goal with
    | |- context [url.QueryEscape ?s] =>
        let e := eval vm_compute in (url.QueryEscape s) in
        change (url.QueryEscape s) with e
    end;
    rewrite ?append_cons, append_nil_l; simpl; rewrite H; reflexivity.
Qed.

Lemma QueryEscape_round_trip (s : string) :
  url.unescape (url.QueryEscape s) url.encodeQueryComponent = (s, None).
Proof.
  unfold url.QueryEscape. induction s as [|c s IH]; [reflexivity|].
  rewrite escape_cons. now apply (unescape_query_byte c).
Qed.

Lemma QueryEscape_inj (s1 s2 : string) :
  url.QueryEscape s1 = url.QueryEscape s2 -> s1 = s2.
Proof.
  intros H. pose proof (QueryEscape_round_trip s1) as H1.
  rewrite H, QueryEscape_round_trip in H1. now injection H1.
Qed.

(** X15: [esc] loses nothing: decoding an escaped string as a query
    component gives back the original bytes, so two different strings
    never have the same escaped form. *)
Theorem esc_round_trip (s : string) :
  url.unescape (esc s) url.encodeQueryComponent = (s, None)
  /\ (forall s', esc s = esc s' -> s = s').
Proof.
  split; [apply QueryEscape_round_trip|].
  intros s'. apply QueryEscape_inj.
Qed.

Lemma QueryEscape_byte_no_slash (c : ascii) :
  strings.mem "/" (url.QueryEscape (String c "")) = false.
Proof. each_byte c; vm_compute; reflexivity. Qed.

Lemma QueryEscape_no_slash (s : string) :
  strings.mem "/" (url.QueryEscape s) = false.
Proof.
  unfold url.QueryEscape. induction s as [|c s IH]; [reflexivity|].
  rewrite escape_cons, mem_append, IH.
  now rewrite (QueryEscape_byte_no_slash c
                 : strings.mem _ (url.escape _ _) = _).
Qed.

Lemma Cut_at_first (c : ascii) (a r : string) :
  strings.mem c a = false ->
  strings.Cut c (a +:+ String c "" +:+ r) = (a, r).
Proof.
  intros H. change (String c "" +:+ r) with (String c r).
  induction a as [|x a IH].
  - change ("" +:+ String c r) with (String c r).
    cbn [strings.Cut]. now rewrite Ascii.eqb_refl.
  - rewrite append_cons. cbn [strings.mem strings.Cut] in *.
    apply orb_false_elim in H as [Hx Ha]. rewrite Hx, (IH Ha). reflexivity.
Qed.

Lemma append_inj_l (p a b : string) : p +:+ a = p +:+ b -> a = b.
Proof.
  induction p as [|x p IH]; [auto|].
  rewrite !append_cons. intros [= H]. auto.
Qed.

(** X16: different objects never share a request URL: if two objects
    differ in the bucket or in the key, the URLs [createURL] gives them
    print differently. *)
Theorem createURL_injective (o1 o2 : Object) (u1 u2 : url.URL) :
  createURL o1 = (Some u1, None) ->
  createURL o2 = (Some u2, None) ->
  o1 <> o2 ->
  url.URL_String u1 <> url.URL_String u2.
Proof.
  intros H1 H2 Hne Heq.
  destruct (createURL_spec o1) as (v1 & E1 & _ & _ & S1 & _).
  destruct (createURL_spec o2) as (v2 & E2 & _ & _ & S2 & _).
  rewrite H1 in E1. rewrite H2 in E2.
  injection E1 as <-. injection E2 as <-.
  rewrite S1, S2 in Heq. apply append_inj_l in Heq.
  assert (HC : strings.Cut "/" (esc (Bucket o1) +:+ "/" +:+ esc (Key o1))
               = strings.Cut "/" (esc (Bucket o2) +:+ "/" +:+ esc (Key o2)))
    by now rewrite Heq.
  unfold esc in HC.
  rewrite !Cut_at_first in HC by apply QueryEscape_no_slash.
  injection HC as Hb Hk.
  apply QueryEscape_inj in Hb. apply QueryEscape_inj in Hk.
  apply Hne. destruct o1, o2. cbn in Hb, Hk. now subst.
Qed.

(** X17: the path [get] signs is the decoded one: the canonical string
    ends with [/bucket/key] in which every space is replaced by [+] and
    every other byte stands as it is, without percent escapes. *)
Theorem get_signs_decoded_path (auth : Auth) (req : GetRequest) (n : nat) :
  exists hreq sig,
    requests (trace (snd (get auth req (mkWorld n [])))) = [hreq]
    /\ sign auth
         ("GET" +:+ N +:+ N +:+ N +:+ format (clock n) +:+ N
            +:+ "/" +:+ plus (Bucket (GetRequest_Object req))
            +:+ "/" +:+ plus (Key (GetRequest_Object req)))
       = (sig, None)
    /\ http.Header hreq !! "Authorization"
       = Some ["AWS " +:+ AccessKey auth +:+ ":" +:+ sig].
Proof.
  destruct (get_run auth req (mkWorld n [])) as (u & sig & Hu & Hs & Hrun).
  destruct (createURL_spec (GetRequest_Object req))
    as (v & Hv & HP & _).
  rewrite Hu in Hv. injection Hv as <-.
  cbv zeta in Hrun. rewrite Hrun. clear Hrun.
  eexists _, sig. split; [reflexivity|]. split.
  - unfold signGet in Hs. cbn [ticks] in Hs. rewrite HP in Hs. exact Hs.
  - rewrite !Header_Add_lookup. reflexivity.
Qed.

(** *** The URL of a list request *)

Lemma QueryEscape_byte_query (c : ascii) :
  strings.all query_byte (url.QueryEscape (String c "")) = true.
Proof. each_byte c; vm_compute; reflexivity. Qed.

Lemma QueryEscape_query (s : string) :
  strings.all query_byte (url.QueryEscape s) = true.
Proof.
  unfold url.QueryEscape. induction s as [|c s IH]; [reflexivity|].
  rewrite escape_cons, all_append, IH.
  now rewrite (QueryEscape_byte_query c : strings.all _ (url.escape _ _) = _).
Qed.

Lemma encode_key_query (k : string) (vs : Datatypes.list string) :
  forall buf,
    strings.all query_byte buf = true ->
    strings.all query_byte (url.encode_key k vs buf) = true.
Proof.
  induction vs as [|v vs IH]; intros buf Hb; [exact Hb|].
  cbn [url.encode_key]. apply IH.
  rewrite !all_append, Hb, !QueryEscape_query.
  destruct (String.eqb buf ""); reflexivity.
Qed.

Lemma Values_Encode_query (v : gmap string (Datatypes.list string)) :
  strings.all query_byte (url.Values_Encode v) = true.
Proof.
  unfold url.Values_Encode.
  generalize (merge_sort String.le (map fst (map_to_list v))).
  assert (H : strings.all query_byte "" = true) by reflexivity.
  revert H. generalize EmptyString.
  intros buf Hb l. revert buf Hb.
  induction l as [|k l IH]; intros buf Hb; [exact Hb|].
  cbn [fold_left]. apply IH. now apply encode_key_query.
Qed.

Lemma query_byte_facts (c : ascii) :
  query_byte c = true ->
  ((N_of_ascii c <? 32)%N || (N_of_ascii c =? 127)%N) = false
  /\ Ascii.eqb "#" c = false /\ Ascii.eqb "?" c = false.
Proof. each_byte c; vm_compute; intros H; try discriminate H; auto. Qed.

Lemma unreserved_facts (c : ascii) :
  url.unreserved c = true ->
  ((N_of_ascii c <? 32)%N || (N_of_ascii c =? 127)%N) = false
  /\ Ascii.eqb "#" c = false /\ Ascii.eqb "?" c = false
  /\ Ascii.eqb c "%" = false
  /\ url.shouldEscape c url.encodePath = false.
Proof. each_byte c; vm_compute; intros H; try discriminate H; auto. Qed.

(** What holds of a string when each of its bytes is neither a control
    byte nor [#] nor [?]. *)
Lemma quiet_string (f : ascii -> bool) (s : string) :
  (forall c, f c = true ->
     ((N_of_ascii c <? 32)%N || (N_of_ascii c =? 127)%N) = false
     /\ Ascii.eqb "#" c = false /\ Ascii.eqb "?" c = false) ->
  strings.all f s = true ->
  url.stringContainsCTLByte s = false
  /\ strings.mem "#" s = false /\ strings.mem "?" s = false.
Proof.
  intros Hf. induction s as [|c s IH]; [auto|].
  cbn [strings.all strings.mem url.stringContainsCTLByte].
  intros [Hc Hs]%andb_prop. destruct (Hf c Hc) as (-> & -> & ->).
  now apply IH.
Qed.

Lemma ctl_append (a b : string) :
  url.stringContainsCTLByte (a +:+ b)
  = url.stringContainsCTLByte a || url.stringContainsCTLByte b.
Proof.
  induction a as [|x a IH]; [reflexivity|].
  rewrite append_cons. cbn [url.stringContainsCTLByte].
  now rewrite IH, orb_assoc.
Qed.

Lemma Cut_absent (c : ascii) (s : string) :
  strings.mem c s = false -> strings.Cut c s = (s, "").
Proof.
  induction s as [|x s IH]; [reflexivity|].
  cbn [strings.mem strings.Cut]. intros [Hx Hs]%orb_false_elim.
  now rewrite Hx, (IH Hs).
Qed.

Lemma Count_absent (c : ascii) (s : string) :
  strings.mem c s = false -> strings.Count c s = O.
Proof.
  induction s as [|x s IH]; [reflexivity|].
  cbn [strings.mem strings.Count]. intros [Hx Hs]%orb_false_elim.
  now rewrite Hx, (IH Hs).
Qed.

Lemma Count_append (c : ascii) (a b : string) :
  strings.Count c (a +:+ b) = (strings.Count c a + strings.Count c b)%nat.
Proof.
  induction a as [|x a IH]; [reflexivity|].
  rewrite append_cons. cbn [strings.Count]. rewrite IH. lia.
Qed.

Lemma HasSuffix_absent (c : ascii) (s : string) :
  strings.mem c s = false -> strings.HasSuffix c s = false.
Proof.
  induction s as [|x s IH]; [reflexivity|].
  cbn [strings.mem strings.HasSuffix]. intros [Hx Hs]%orb_false_elim.
  destruct s; [exact Hx | now apply IH].
Qed.

Lemma HasSuffix_append (c : ascii) (a : string) (x : ascii) (r : string) :
  strings.HasSuffix c (a +:+ String x r) = strings.HasSuffix c (String x r).
Proof.
  induction a as [|y a IH]; [reflexivity|].
  rewrite append_cons. set (rhs := strings.HasSuffix c (String x r)) in *.
  cbn [strings.HasSuffix].
  destruct (a +:+ String x r) eqn:E; [destruct a; discriminate E|].
  exact IH.
Qed.

Lemma drop_last_append (a : string) (x : ascii) :
  strings.drop_last (a +:+ String x "") = a.
Proof.
  induction a as [|y a IH]; [reflexivity|].
  rewrite append_cons. cbn [strings.drop_last].
  destruct (a +:+ String x "") eqn:E; [destruct a; discriminate E|].
  now rewrite IH.
Qed.

Lemma unescape_unreserved (b r t : string) :
  strings.all url.unreserved b = true ->
  url.unescape r url.encodePath = (t, None) ->
  url.unescape (b +:+ r) url.encodePath = (b +:+ t, None).
Proof.
  intros Hb Hr. induction b as [|c b IH]; [exact Hr|].
  cbn [strings.all] in Hb. apply andb_prop in Hb as [Hc Hb].
  destruct (unreserved_facts c Hc) as (_ & _ & _ & Hp & _).
  rewrite !append_cons. cbn [url.unescape]. now rewrite Hp, (IH Hb).
Qed.

Lemma escape_unreserved (b r : string) :
  strings.all url.unreserved b = true ->
  url.escape (b +:+ r) url.encodePath = b +:+ url.escape r url.encodePath.
Proof.
  intros Hb. induction b as [|c b IH]; [reflexivity|].
  cbn [strings.all] in Hb. apply andb_prop in Hb as [Hc Hb].
  destruct (unreserved_facts c Hc) as (_ & _ & _ & _ & Hp).
  rewrite !append_cons. cbn [url.escape]. now rewrite Hp, (IH Hb).
Qed.

Lemma setEncoded_unreserved (b : string) :
  strings.all url.unreserved b = true ->
  url.setEncoded (String "/" (b +:+ "/")) url.encodePath
  = ((String "/" (b +:+ "/"), ""), None).
Proof.
  intros Hb. unfold url.setEncoded.
  rewrite (unescape_slash (b +:+ "/") (b +:+ "/"))
    by (now apply unescape_unreserved).
  assert (E : url.escape (String "/" (b +:+ "/")) url.encodePath
              = String "/" (b +:+ "/")).
  { change (url.escape (String "/" (b +:+ "/")) url.encodePath)
      with (String "/" (url.escape (b +:+ "/") url.encodePath)).
    now rewrite escape_unreserved. }
  rewrite E, String.eqb_refl. reflexivity.
Qed.

(** The URL of a list request on a bucket of unreserved bytes: the path
    is [/bucket/], the query is kept raw, and the URL prints as it was
    written. *)
Lemma Parse_list_URL (b q : string) :
  strings.all url.unreserved b = true ->
  strings.all query_byte q = true ->
  let u := url.mkURL "https" "s3.amazonaws.com" (String "/" (b +:+ "/")) ""
             (String.eqb q "") q "" "" in
  url.Parse (url.endpoint +:+ b +:+ "/?" +:+ q) = (Some u, None)
  /\ url.URL_String u = url.endpoint +:+ b +:+ "/?" +:+ q.
Proof.
  intros Hb Hq u.
  destruct (quiet_string url.unreserved b
              (fun c H => let '(conj a (conj b0 (conj c0 _))) :=
                            unreserved_facts c H in
                          conj a (conj b0 c0)) Hb)
    as (Cb & Fb & Qb).
  destruct (quiet_string query_byte q query_byte_facts Hq) as (Cq & Fq & Qq).
  pose proof (setEncoded_unreserved b Hb) as HS.
  split.
  - unfold url.Parse. rewrite CutPrefix_append.
    rewrite Cut_absent
      by (rewrite !mem_append, Fb, Fq; reflexivity).
    unfold url.parse.
    rewrite !ctl_append, Cb, Cq. cbn [orb url.stringContainsCTLByte].
    change ((N_of_ascii "/" <? 32)%N || (N_of_ascii "/" =? 127)%N
            || ((N_of_ascii "?" <? 32)%N || (N_of_ascii "?" =? 127)%N
                || false)) with false.
    cbv iota.
    rewrite !Count_append, (Count_absent _ _ Qb), (Count_absent _ _ Qq).
    change (strings.Count "?" "/?") with 1%nat. cbn [Nat.add Nat.eqb].
    rewrite andb_true_r.
    destruct q as [|x q'].
    + replace (b +:+ "/?" +:+ "") with ((b +:+ "/") +:+ String "?" "")
        by (rewrite append_assoc; reflexivity).
      rewrite HasSuffix_append. cbn [strings.HasSuffix].
      rewrite Ascii.eqb_refl, drop_last_append, HS. reflexivity.
    + replace (b +:+ "/?" +:+ String x q')
        with ((b +:+ "/?") +:+ String x q') at 1
        by (rewrite append_assoc; reflexivity).
      rewrite HasSuffix_append, (HasSuffix_absent _ _ Qq).
      replace (b +:+ "/?" +:+ String x q')
        with ((b +:+ "/") +:+ String "?" "" +:+ String x q')
        by (rewrite append_assoc; reflexivity).
      rewrite Cut_at_first
        by (rewrite mem_append, Qb; reflexivity).
      rewrite HS. reflexivity.
  - unfold url.URL_String, url.EscapedPath, url.escaped, u.
    cbn [url.Path url.RawPath url.Scheme url.Host url.ForceQuery
         url.RawQuery url.Fragment].
    change (url.unescape "" url.encodePath) with (EmptyString, @None error).
    cbn [String.eqb negb andb].
    change (String.eqb (String "/" (b +:+ "/")) "*") with false. cbv iota.
    change (url.escape (String "/" (b +:+ "/")) url.encodePath)
      with (String "/" (url.escape (b +:+ "/") url.encodePath)).
    rewrite (escape_unreserved b "/" Hb), orb_negb_r.
    change (url.escape "/" url.encodePath) with "/".
    cbn [Ascii.eqb Bool.eqb]. cbv iota.
    rewrite append_nil_r.
    change (String "/" (b +:+ "/") +:+ "?" +:+ q)
      with (String "/" ((b +:+ "/") +:+ "?" +:+ q)).
    rewrite (append_assoc b "/" ("?" +:+ q)). reflexivity.
Qed.

(** X18: [list] sends the query but does not sign it: for a bucket name
    of unreserved bytes the request goes to
    [https://s3.amazonaws.com/bucket/?query] with the encoded [max-keys],
    [marker] and [prefix], while the canonical string that is signed ends
    with the path [/bucket/] alone. *)
Theorem list_signs_path_without_query (auth : Auth) (req : ListRequest)
    (n : nat) :
  ListRequest_Bucket req <> "" ->
  strings.all url.unreserved (ListRequest_Bucket req) = true ->
  exists hreq sig,
    requests (trace (snd (list auth req (mkWorld n [])))) = [hreq]
    /\ url.URL_String (http.URL hreq)
       = "https://s3.amazonaws.com/" +:+ ListRequest_Bucket req +:+ "/?"
           +:+ url.Values_Encode (list_query req)
    /\ sign auth
         ("GET" +:+ N +:+ N +:+ N +:+ format (clock n) +:+ N
            +:+ "/" +:+ ListRequest_Bucket req +:+ "/") = (sig, None)
    /\ http.Header hreq !! "Authorization"
       = Some ["AWS " +:+ AccessKey auth +:+ ":" +:+ sig].
Proof.
  intros Hne Hb.
  destruct (Parse_list_URL (ListRequest_Bucket req)
              (url.Values_Encode (list_query req)) Hb
              (Values_Encode_query _))
    as [HP HS].
  unfold url.endpoint in HP, HS.
  set (u := url.mkURL _ _ _ _ _ _ _ _) in *.
  pose proof (sign_spec auth
    ("GET" +:+ N +:+ N +:+ N +:+ format (clock n) +:+ N
       +:+ "/" +:+ ListRequest_Bucket req +:+ "/")) as Hs.
  set (sig := base64.EncodeToString _) in Hs. clearbody sig.
  unfold list. apply String.eqb_neq in Hne. rewrite Hne, HP.
  run_monad. unfold signList.
  change (url.Path u) with ("/" +:+ ListRequest_Bucket req +:+ "/").
  rewrite Hs. unfold http.NewRequest. rewrite HS, HP. run_monad.
  set (h := http.Header_Add _ "Authorization" _).
  exists h, sig.
  split; [|split; [exact HS|split; [reflexivity|]]].
  - destruct (transport h) as [resp|err]; [|reflexivity].
    destruct (negb (http.StatusCode resp =? 200)); [reflexivity|].
    destruct (http.io_Copy (http.RespBody resp)) as [buf [k [e|]]];
      [reflexivity|].
    destruct (xml_Unmarshal buf zero). reflexivity.
  - unfold h. rewrite !Header_Add_lookup. reflexivity.
Qed.

(** X9: [list] ignores the error of [url.Parse]: a bucket name that holds
    a control byte (and no [#]) makes the URL unparsable, and the call
    then does not return an error but panics on the nil URL, after
    reading the clock and before any request. *)
Theorem list_unparsable_bucket (auth : Auth) (req : ListRequest)
    (w : World) :
  url.stringContainsCTLByte (ListRequest_Bucket req) = true ->
  strings.mem "#" (ListRequest_Bucket req) = false ->
  list auth req w
  = (Panic "invalid memory address or nil pointer dereference",
     mkWorld (S (ticks w)) (trace w ++ [EvNow])).
Proof.
  intros Hc Hf.
  destruct (quiet_string query_byte (url.Values_Encode (list_query req))
              query_byte_facts (Values_Encode_query _))
    as (_ & Fq & _).
  assert (HP : fst (url.Parse
                      ("https://s3.amazonaws.com/"
                         +:+ ListRequest_Bucket req +:+ "/?"
                         +:+ url.Values_Encode (list_query req))) = None).
  { change "https://s3.amazonaws.com/" with url.endpoint.
    unfold url.Parse. rewrite CutPrefix_append.
    rewrite Cut_absent by (rewrite !mem_append, Hf, Fq; reflexivity).
    unfold url.parse. rewrite ctl_append, Hc. reflexivity. }
  unfold list.
  destruct (String.eqb (ListRequest_Bucket req) "") eqn:Hb.
  { apply String.eqb_eq in Hb. rewrite Hb in Hc. discriminate Hc. }
  destruct (url.Parse _) as [[u|] e]; [discriminate HP | reflexivity].
Qed.

Lemma string_of_uint_unreserved (d : Decimal.uint) :
  strings.all url.unreserved (NilEmpty.string_of_uint d) = true.
Proof. induction d; cbn [NilEmpty.string_of_uint strings.all]; auto. Qed.

Lemma QueryEscape_unreserved (s : string) :
  strings.all url.unreserved s = true -> url.QueryEscape s = s.
Proof.
  unfold url.QueryEscape. induction s as [|c s IH]; [reflexivity|].
  cbn [strings.all url.escape]. intros [Hc Hs]%andb_prop.
  unfold url.unreserved in Hc. apply negb_true_iff in Hc.
  now rewrite Hc, (IH Hs).
Qed.

Lemma QueryEscape_Sprintf_d (n : Z) :
  url.QueryEscape (fmt.Sprintf_d n) = fmt.Sprintf_d n.
Proof.
  apply QueryEscape_unreserved. unfold fmt.Sprintf_d.
  destruct (Z.to_int n) as [d|d]; cbn [NilZero.string_of_int].
  - unfold NilZero.string_of_uint.
    destruct d; try apply string_of_uint_unreserved. reflexivity.
  - cbn [strings.all]. unfold NilZero.string_of_uint.
    destruct d; try apply string_of_uint_unreserved. reflexivity.
Qed.

Lemma eqb_append_nonempty (c : ascii) (s t : string) :
  String.eqb (String c s +:+ t) "" = false.
Proof. reflexivity. Qed.

Lemma list_query_keys (k : string) (m p : option string) :
  let q0 : gmap string (Datatypes.list string) :=
    url.Values_Add ∅ "max-keys" k in
  let q1 := match m with Some x => url.Values_Add q0 "marker" x | None => q0
            end in
  let q2 := match p with Some x => url.Values_Add q1 "prefix" x | None => q1
            end in
  merge_sort String.le (map fst (map_to_list q2))
  = match m with Some _ => ["marker"] | None => [] end
      ++ ["max-keys"]
      ++ match p with Some _ => ["prefix"] | None => [] end
  /\ q2 !! "max-keys" = Some [k]
  /\ q2 !! "marker" = option_map (fun x => [x]) m
  /\ q2 !! "prefix" = option_map (fun x => [x]) p.
Proof.
  destruct m, p; cbv zeta; (split; [vm_compute; reflexivity|]);
    unfold url.Values_Add;
    repeat split;
    repeat first
      [ rewrite lookup_insert_eq
      | rewrite lookup_insert_ne by discriminate
      | rewrite lookup_empty ];
    reflexivity.
Qed.

(** X19: the query [list] sends names its parameters in increasing order,
    [marker], [max-keys], [prefix], joined by [&], with the marker and
    the prefix query-escaped and left out when empty. *)
Theorem list_query_encoded (req : ListRequest) :
  url.Values_Encode (list_query req)
  = (if String.eqb (Marker req) "" then ""
     else "marker=" +:+ url.QueryEscape (Marker req) +:+ "&")
      +:+ "max-keys="
      +:+ (if 0 <? MaxKeys req then fmt.Sprintf_d (MaxKeys req) else "1000")
      +:+ (if String.eqb (Prefix req) "" then ""
           else "&prefix=" +:+ url.QueryEscape (Prefix req)).
Proof.
  set (k := if 0 <? MaxKeys req then fmt.Sprintf_d (MaxKeys req) else "1000").
  assert (Hk : url.QueryEscape k = k).
  { unfold k. destruct (0 <? MaxKeys req);
      [apply QueryEscape_Sprintf_d | reflexivity]. }
  destruct (list_query_keys k
              (if String.eqb (Marker req) "" then None else Some (Marker req))
              (if String.eqb (Prefix req) "" then None
               else Some (Prefix req)))
    as (HK & H1 & H2 & H3).
  cbv zeta in HK, H1, H2, H3.
  assert (E : list_query req
              = match (if String.eqb (Prefix req) "" then None
                       else Some (Prefix req)) with
                | Some x =>
                    url.Values_Add
                      match (if String.eqb (Marker req) "" then None
                             else Some (Marker req)) with
                      | Some y =>
                          url.Values_Add (url.Values_Add ∅ "max-keys" k)
                            "marker" y
                      | None => url.Values_Add ∅ "max-keys" k
                      end "prefix" x
                | None =>
                    match (if String.eqb (Marker req) "" then None
                           else Some (Marker req)) with
                    | Some y =>
                        url.Values_Add (url.Values_Add ∅ "max-keys" k)
                          "marker" y
                    | None => url.Values_Add ∅ "max-keys" k
                    end
                end).
  { unfold list_query, k.
    destruct (String.eqb (Prefix req) ""), (String.eqb (Marker req) ""),
      (0 <? MaxKeys req); reflexivity. }
  unfold url.Values_Encode. rewrite E, HK.
  destruct (String.eqb (Marker req) ""), (String.eqb (Prefix req) "");
    cbn [app fold_left option_map] in *;
    rewrite ?H1, ?H2, ?H3; cbn [default from_option id url.encode_key];
    change (url.QueryEscape "max-keys") with "max-keys";
    change (url.QueryEscape "marker") with "marker";
    change (url.QueryEscape "prefix") with "prefix";
    rewrite ?Hk; cbn [String.eqb];
    rewrite ?eqb_append_nonempty;
    rewrite ?append_nil_r, ?append_assoc; reflexivity.
Qed.

(** X20: the [ContentLength] field of a put: [putObject] declares exactly
    the number of bytes of the buffer it sends, and [put] declares what
    the factory reports, whatever the stream it sends holds. *)
Theorem put_declared_length (auth : Auth) (n : nat) (hreq : http.Request) :
  (forall req,
      In hreq (requests (trace (snd (putObject auth req (mkWorld n []))))) ->
      http.Body hreq = http.BufferBody (Data req)
      /\ http.ContentLength hreq = Z.of_nat (length (Data req)))
  /\ (forall req,
        In hreq (requests (trace (snd (put auth req (mkWorld n []))))) ->
        exists reader,
          CreateReader (ReaderFact req) = inl reader
          /\ http.Body hreq = http.ReaderBody reader
          /\ http.ContentLength hreq = Len (ReaderFact req)).
Proof.
  split; intros req Hin.
  - destruct (putObject_run auth req (mkWorld n [])) as (u & sig & Hl).
    cbv zeta in Hl. destruct Hl as (_ & _ & Hl). rewrite Hl in Hin.
    clear Hl. cbn [ticks trace snd] in *.
    set (h := put_request _ _ _ _ _ _ _) in *.
    assert (h = hreq) as <-.
    { destruct (transport h); issued Hin; exact Hin. }
    split; reflexivity.
  - destruct (put_run auth req (mkWorld n [])) as (u & sig & Hl).
    cbv zeta in Hl. destruct Hl as (_ & _ & Hl). rewrite Hl in Hin.
    clear Hl.
    destruct (CreateReader (ReaderFact req)) as [reader|err];
      [|cbn [requests app trace snd] in Hin; destruct Hin].
    cbv zeta in Hin. cbn [ticks trace snd] in *.
    set (h := put_request _ _ _ _ _ _ _) in *.
    assert (h = hreq) as <-.
    { destruct (transport h); issued Hin; exact Hin. }
    exists reader. repeat split; reflexivity.
Qed.

End Package.

(** *** The operations on concrete inputs *)

Lemma format_2019 (ns off : Z) :
  format (time.mkTime 1546300800 ns off) = "Tue, 01 Jan 2019 00:00:00 +0000".
Proof. reflexivity. Qed.

(** C1: the canonical string is the verb, an empty field, the content
    type, the date and the path joined by newlines, with an empty content
    type for GET, DELETE and LIST and the date formatted by RFC1123Z in
    UTC; for GET, the instant Tue, 01 Jan 2019 00:00:00 +0000 and the path
    /mybucket/mykey it is GET, three newlines, the date, a newline and the
    path, and the Authorization header of the request built with access
    key AKID and secret "secret" is "AWS AKID:" followed by the base64 of
    the HMAC-SHA1 of that string under the secret. *)
Theorem canonical_string_and_authorization :
  (forall (path ct : string) (a : Auth) (t : time.Time),
      signGet path a t
      = sign a (strings.Join ["GET"; ""; ""; format t; path] N)
      /\ signList path a t
         = sign a (strings.Join ["GET"; ""; ""; format t; path] N)
      /\ signDelete path a t
         = sign a (strings.Join ["DELETE"; ""; ""; format t; path] N)
      /\ signPut path ct a t
         = sign a (strings.Join ["PUT"; ""; ct; format t; path] N))
  /\ (forall t : time.Time,
        format t = time.Format_RFC1123Z (time.UTC t)
        /\ time.offset (time.UTC t) = 0)
  /\ (forall ns off : Z,
        strings.Join
          ["GET"; ""; ""; format (time.mkTime 1546300800 ns off);
           "/mybucket/mykey"] N
        = "GET" +:+ nl +:+ nl +:+ nl +:+ "Tue, 01 Jan 2019 00:00:00 +0000"
            +:+ nl +:+ "/mybucket/mykey")
  /\ (forall (transport : http.Request -> http.Response + error)
             (ns off : Z) (n : nat),
        exists hreq,
          requests
            (trace
               (snd (get (fun _ => time.mkTime 1546300800 ns off) transport
                       auth_AKID (mkGetRequest mykey) (mkWorld n []))))
          = [hreq]
          /\ http.Header hreq !! "Authorization"
             = Some ["AWS AKID:"
                     +:+ base64.EncodeToString
                           (hmac.hmac_sha1 (bytes.of_string "secret")
                              (bytes.of_string
                                 ("GET" +:+ nl +:+ nl +:+ nl
                                    +:+ "Tue, 01 Jan 2019 00:00:00 +0000"
                                    +:+ nl +:+ "/mybucket/mykey")))]
          /\ http.Header hreq !! "Authorization"
             = Some ["AWS AKID:/r96naC3R2z2IfNUfKMXRx8T4PQ="]).
Proof.
  split; [intros; repeat split; reflexivity|].
  split; [intros; split; reflexivity|].
  split; [intros; reflexivity|].
  intros transport ns off n.
  destruct (get_run (fun _ => time.mkTime 1546300800 ns off) transport
              auth_AKID (mkGetRequest mykey) (mkWorld n []))
    as (u & sig & Hu & Hs & Hrun).
  vm_compute in Hu. injection Hu as <-.
  unfold signGet in Hs. rewrite sign_spec, format_2019 in Hs.
  injection Hs as <-.
  cbv zeta in Hrun. rewrite Hrun, format_2019. clear Hrun.
  eexists. split; [reflexivity|].
  rewrite !Header_Add_lookup.
  split; [reflexivity | vm_compute; reflexivity].
Qed.

(** C2, counterexample: for the key "my key" the path of the request is
    /mybucket/my+key, not /mybucket/my%20key; and for the key
    "dir/my key" the signed path /mybucket/dir/my+key differs from the
    path of the request, /mybucket/dir%2Fmy+key. *)
Lemma space_in_key_counterexample :
  (exists u,
      createURL (mkObject "mybucket" "my key") = (Some u, None)
      /\ url.EscapedPath u = "/mybucket/my+key"
      /\ url.EscapedPath u <> "/mybucket/my%20key")
  /\ (exists u,
        createURL (mkObject "mybucket" "dir/my key") = (Some u, None)
        /\ url.Path u = "/mybucket/dir/my+key"
        /\ url.EscapedPath u = "/mybucket/dir%2Fmy+key"
        /\ url.Path u <> url.EscapedPath u).
Proof.
  split; eexists; (split; [vm_compute; reflexivity|]);
    repeat split; try (vm_compute; reflexivity); vm_compute; discriminate.
Qed.

Lemma object_paths_witness :
  exists u,
    createURL (mkObject "mybucket" "my key") = (Some u, None)
    /\ url.EscapedPath u = "/mybucket/my+key"
    /\ esc "my key" = esc "my" +:+ "+" +:+ esc "key"
    /\ url.Path u = url.EscapedPath u.
Proof.
  destruct (object_paths (mkObject "mybucket" "my key"))
    as (u & Hu & HE & Hsp & _ & Heq).
  exists u. split; [exact Hu|]. split; [exact HE|].
  split; [apply (Hsp "my" "key"); reflexivity|].
  apply Heq; vm_compute; reflexivity.
Defined.

(** C3, at the failing input: for a put of 65 bytes, buffered or
    streaming, the [ContentLength] field of the request is 65, but the
    Content-Length header the code adds is "A", the byte of code point 65,
    and not the decimal string "65". *)
Theorem put_content_length_65
    (transport : http.Request -> http.Response + error)
    (types : string -> string) (n : nat) :
  fmt.Sprintf_d 65 = "65"
  /\ (exists hreq,
        requests
          (trace
             (snd (putObject clock_2019 transport types auth_AKID
                     (mkPutObjectRequest mykey "text/plain" (repeat 0 65))
                     (mkWorld n []))))
        = [hreq]
        /\ http.ContentLength hreq = 65
        /\ http.Header hreq !! "Content-Length" = Some ["A"]
        /\ http.Header hreq !! "Content-Length" <> Some [fmt.Sprintf_d 65])
  /\ (exists hreq,
        requests
          (trace
             (snd (put clock_2019 transport types auth_AKID
                     (mkPutRequest mykey "text/plain"
                        (mkReaderFactory (inl (repeat 0 65)) 65))
                     (mkWorld n []))))
        = [hreq]
        /\ http.ContentLength hreq = 65
        /\ http.Header hreq !! "Content-Length" = Some ["A"]
        /\ http.Header hreq !! "Content-Length" <> Some [fmt.Sprintf_d 65]).
Proof.
  split; [reflexivity|]. split.
  - destruct (putObject_run clock_2019 transport types auth_AKID
                (mkPutObjectRequest mykey "text/plain" (repeat 0 65))
                (mkWorld n []))
      as (u & sig & Hrun).
    cbv zeta in Hrun. destruct Hrun as (_ & _ & Hrun). rewrite Hrun.
    clear Hrun. eexists. split.
    { destruct (transport _); reflexivity. }
    match goal with
    | |- context [put_request ?u ?b ?l ?d ?c ?a ?s] =>
        destruct (put_request_headers u b l d c a s)
          as (_ & _ & _ & HL & HC & _)
    end.
    rewrite HL, HC. repeat split; try reflexivity.
    vm_compute. discriminate.
  - destruct (put_run clock_2019 transport types auth_AKID
                (mkPutRequest mykey "text/plain"
                   (mkReaderFactory (inl (repeat 0 65)) 65))
                (mkWorld n []))
      as (u & sig & Hrun).
    cbv zeta in Hrun. destruct Hrun as (_ & _ & Hrun). rewrite Hrun.
    clear Hrun. cbn [CreateReader ReaderFact Len]. eexists. split.
    { destruct (transport _); reflexivity. }
    match goal with
    | |- context [put_request ?u ?b ?l ?d ?c ?a ?s] =>
        destruct (put_request_headers u b l d c a s)
          as (_ & _ & _ & HL & HC & _)
    end.
    rewrite HL, HC. repeat split; try reflexivity.
    vm_compute. discriminate.
Qed.

(** C8, counterexample: with a decoder that stores what it has read
    before it fails, a 200 response whose body is cut short after the
    bucket name makes [list] return, with a nil error, a result that
    holds that name and is not the zero value. *)
Lemma list_decode_error_counterexample :
  snd (Unmarshal_name truncated_listing zero_ListBucketResult) <> None
  /\ fst (list clock_2019 (respond 200 "200 OK" truncated_listing)
            ListBucketResult_ zero_ListBucketResult Unmarshal_name
            auth_AKID list_mybucket (mkWorld 0 []))
     = Ret (mkListBucketResult "mybucket" [] false, None)
  /\ fst (list clock_2019 (respond 200 "200 OK" truncated_listing)
            ListBucketResult_ zero_ListBucketResult Unmarshal_name
            auth_AKID list_mybucket (mkWorld 0 []))
     <> Ret (zero_ListBucketResult, None).
Proof.
  split; [vm_compute; discriminate|].
  split; [vm_compute; reflexivity | vm_compute; discriminate].
Qed.

Lemma list_decode_error_discarded_witness :
  fst (list clock_2019 (respond 200 "200 OK" truncated_listing)
         ListBucketResult_ zero_ListBucketResult Unmarshal_name
         auth_AKID list_mybucket (mkWorld 0 []))
  = Ret (mkListBucketResult "mybucket" [] false, None).
Proof.
  destruct (requests
              (trace
                 (snd (list clock_2019
                         (respond 200 "200 OK" truncated_listing)
                         ListBucketResult_ zero_ListBucketResult
                         Unmarshal_name auth_AKID list_mybucket
                         (mkWorld 0 [])))))
    as [|h l] eqn:E; [vm_compute in E; discriminate E|].
  apply (list_decode_error_discarded clock_2019
           (respond 200 "200 OK" truncated_listing) ListBucketResult_
           zero_ListBucketResult Unmarshal_name auth_AKID list_mybucket 0 h
           (http.mkResponse "200 OK" 200 (truncated_listing, None))
           (mkListBucketResult "mybucket" [] false)
           (external "XML syntax error: unexpected EOF")).
  - rewrite E. left. reflexivity.
  - reflexivity.
  - reflexivity.
  - reflexivity.
  - vm_compute. reflexivity.
Defined.


Lemma sign_deterministic_witness :
  signGet "/mybucket/mykey" (mkAuth "AKID" "secret")
    (time.mkTime 1546300800 0 0)
  = signGet "/mybucket/mykey" (mkAuth "OTHER" "secret")
      (time.mkTime 1546300800 999 3600)
  /\ signPut "/mybucket/mykey" "text/plain" (mkAuth "AKID" "secret")
       (time.mkTime 1546300800 0 0)
     = signPut "/mybucket/mykey" "text/plain" (mkAuth "OTHER" "secret")
         (time.mkTime 1546300800 999 3600).
Proof.
  destruct (sign_deterministic (mkAuth "AKID" "secret")
              (mkAuth "OTHER" "secret") (time.mkTime 1546300800 0 0)
              (time.mkTime 1546300800 999 3600) "/mybucket/mykey"
              "text/plain" eq_refl eq_refl)
    as (HG & _ & _ & HP).
  split; [exact HG | exact HP].
Defined.

Lemma del_status_witness :
  fst (del clock_2019 (respond 204 "204 No Content" []) auth_AKID
         (mkDeleteRequest mykey) (mkWorld 0 []))
  = Ret None
  /\ fst (del clock_2019 (respond 404 "404 Not Found" []) auth_AKID
            (mkDeleteRequest mykey) (mkWorld 0 []))
     = Ret (Some (errorString "404 Not Found")).
Proof.
  split.
  - destruct (requests
                (trace
                   (snd (del clock_2019 (respond 204 "204 No Content" [])
                           auth_AKID (mkDeleteRequest mykey)
                           (mkWorld 0 [])))))
      as [|h l] eqn:E; [vm_compute in E; discriminate E|].
    destruct (del_status clock_2019 (respond 204 "204 No Content" [])
                auth_AKID (mkDeleteRequest mykey) 0 h
                (http.mkResponse "204 No Content" 204 ([], None)))
      as (_ & H204 & _);
      [rewrite E; left; reflexivity | reflexivity |].
    apply H204. reflexivity.
  - destruct (requests
                (trace
                   (snd (del clock_2019 (respond 404 "404 Not Found" [])
                           auth_AKID (mkDeleteRequest mykey)
                           (mkWorld 0 [])))))
      as [|h l] eqn:E; [vm_compute in E; discriminate E|].
    destruct (del_status clock_2019 (respond 404 "404 Not Found" [])
                auth_AKID (mkDeleteRequest mykey) 0 h
                (http.mkResponse "404 Not Found" 404 ([], None)))
      as (_ & _ & H404);
      [rewrite E; left; reflexivity | reflexivity |].
    apply H404; reflexivity.
Defined.

Lemma list_empty_bucket_witness :
  list clock_2019 (respond 200 "200 OK" []) ListBucketResult_
    zero_ListBucketResult Unmarshal_name auth_AKID
    (mkListRequest "" 10 "" "") (mkWorld 0 [])
  = (Ret (zero_ListBucketResult, Some (errors_New "no bucket name")),
     mkWorld 0 []).
Proof.
  apply (list_empty_bucket clock_2019 (respond 200 "200 OK" [])
           ListBucketResult_ zero_ListBucketResult Unmarshal_name
           auth_AKID (mkListRequest "" 10 "" "") (mkWorld 0 [])).
  reflexivity.
Defined.


(** *** The further properties on concrete inputs *)

Lemma single_attempt_witness :
  fst (run clock_2019 (refuse "dial tcp: timeout") no_types
         ListBucketResult_ zero_ListBucketResult Unmarshal_name auth_AKID
         (OpDelete (mkDeleteRequest mykey)) (mkWorld 0 []))
  = Ret (Some (external "dial tcp: timeout")).
Proof.
  destruct (requests
              (trace
                 (snd (run clock_2019 (refuse "dial tcp: timeout") no_types
                         ListBucketResult_ zero_ListBucketResult
                         Unmarshal_name auth_AKID
                         (OpDelete (mkDeleteRequest mykey))
                         (mkWorld 0 [])))))
    as [|h l] eqn:E; [vm_compute in E; discriminate E|].
  destruct (single_attempt clock_2019 (refuse "dial tcp: timeout") no_types
              ListBucketResult_ zero_ListBucketResult Unmarshal_name
              auth_AKID (OpDelete (mkDeleteRequest mykey)) 0)
    as (_ & _ & H).
  apply (H h (external "dial tcp: timeout")).
  - rewrite E. left. reflexivity.
  - reflexivity.
Defined.

Lemma object_operations_reach_transport_witness :
  length
    (requests
       (trace
          (snd (put clock_2019 (respond 200 "200 OK" []) no_types auth_AKID
                  put_65_bytes (mkWorld 0 [])))))
  = 1%nat.
Proof.
  apply (proj2 (proj2 (proj2
           (object_operations_reach_transport clock_2019
              (respond 200 "200 OK" []) no_types auth_AKID 0)))
           put_65_bytes (repeat 0 65)).
  reflexivity.
Defined.

Lemma put_succeeds_on_200_only_witness :
  fst (putObject clock_2019 (respond 200 "200 OK" []) no_types auth_AKID
         notes_txt (mkWorld 0 []))
  = Ret None
  /\ fst (putObject clock_2019 (respond 204 "204 No Content" []) no_types
            auth_AKID notes_txt (mkWorld 0 []))
     <> Ret None.
Proof.
  split.
  - apply (proj1 (put_succeeds_on_200_only clock_2019
                    (respond 200 "200 OK" []) no_types auth_AKID 0)
             notes_txt).
    eexists _, _. split; [vm_compute; reflexivity|].
    split; reflexivity.
  - intros H.
    apply (proj1 (put_succeeds_on_200_only clock_2019
                    (respond 204 "204 No Content" []) no_types auth_AKID 0)
             notes_txt) in H.
    destruct H as (h & resp & _ & Ht & Hc).
    injection Ht as <-. discriminate Hc.
Defined.

Lemma put_closes_reader_witness :
  put clock_2019 (respond 200 "200 OK" []) no_types auth_AKID put_no_reader
    (mkWorld 0 [])
  = (Ret (Some (external "open: no such file")),
     mkWorld 1 [EvNow; EvCreateReader])
  /\ exists pre hreq,
       trace (snd (put clock_2019 (respond 200 "200 OK" []) no_types
                     auth_AKID put_65_bytes (mkWorld 0 [])))
       = pre ++ [EvCloseReader]
       /\ reader_closes pre = O
       /\ requests pre = [hreq]
       /\ http.Body hreq = http.ReaderBody (repeat 0 65).
Proof.
  split.
  - apply (proj1 (put_closes_reader clock_2019 (respond 200 "200 OK" [])
                    no_types auth_AKID put_no_reader 0)).
    reflexivity.
  - apply (proj2 (put_closes_reader clock_2019 (respond 200 "200 OK" [])
                    no_types auth_AKID put_65_bytes 0)).
    reflexivity.
Defined.

Lemma put_content_type_signed_witness :
  types_txt (filepath.Ext "dir/notes.txt") = "text/plain"
  /\ exists hreq path sig,
       In hreq
         (requests
            (trace
               (snd (putObject clock_2019 (respond 200 "200 OK" [])
                       types_txt auth_AKID notes_txt (mkWorld 0 [])))))
       /\ http.Header hreq !! "Content-Type"
          = Some [types_txt (filepath.Ext "dir/notes.txt")]
       /\ sign auth_AKID
            ("PUT" +:+ N +:+ N +:+ types_txt (filepath.Ext "dir/notes.txt")
               +:+ N +:+ format (clock_2019 0) +:+ N +:+ path)
          = (sig, None)
       /\ http.Header hreq !! "Authorization"
          = Some ["AWS " +:+ AccessKey auth_AKID +:+ ":" +:+ sig].
Proof.
  split; [reflexivity|].
  destruct (requests
              (trace
                 (snd (putObject clock_2019 (respond 200 "200 OK" [])
                         types_txt auth_AKID notes_txt (mkWorld 0 [])))))
    as [|h l] eqn:E; [vm_compute in E; discriminate E|].
  destruct (proj1 (put_content_type_signed clock_2019
                     (respond 200 "200 OK" []) types_txt auth_AKID 0 h)
              notes_txt)
    as (path & sig & HT & Hs & HA).
  { rewrite E. left. reflexivity. }
  exists h, path, sig.
  split; [left; reflexivity|]. split; [exact HT|]. split; [exact Hs|].
  exact HA.
Defined.

Lemma list_error_zero_result_witness :
  fst (list clock_2019 (respond 404 "404 Not Found" truncated_listing)
         ListBucketResult_ zero_ListBucketResult Unmarshal_name auth_AKID
         list_mybucket (mkWorld 0 []))
  = Ret (zero_ListBucketResult, Some (errorString "404 Not Found"))
  /\ zero_ListBucketResult = zero_ListBucketResult.
Proof.
  assert (H : fst (list clock_2019
                     (respond 404 "404 Not Found" truncated_listing)
                     ListBucketResult_ zero_ListBucketResult Unmarshal_name
                     auth_AKID list_mybucket (mkWorld 0 []))
              = Ret (zero_ListBucketResult,
                     Some (errorString "404 Not Found")))
    by (vm_compute; reflexivity).
  split; [exact H|].
  apply (list_error_zero_result clock_2019
           (respond 404 "404 Not Found" truncated_listing)
           ListBucketResult_ zero_ListBucketResult Unmarshal_name auth_AKID
           list_mybucket 0 zero_ListBucketResult
           (errorString "404 Not Found") H).
Defined.


Lemma mimeType_by_last_extension_witness :
  mimeType types_txt ("dir.d/notes" +:+ "." +:+ "txt")
  = types_txt ("." +:+ "txt")
  /\ mimeType types_txt ("dir.d" +:+ "/" +:+ "notes") = types_txt "".
Proof.
  split.
  - apply (proj1 (mimeType_by_last_extension types_txt "dir.d/notes" "txt"));
      reflexivity.
  - apply (proj2 (mimeType_by_last_extension types_txt "dir.d" "notes")).
    reflexivity.
Defined.

Lemma esc_round_trip_witness : esc "a b" <> esc "a+b".
Proof.
  intros H. apply (proj2 (esc_round_trip "a b") "a+b") in H.
  discriminate H.
Defined.

Lemma createURL_injective_witness :
  exists u1 u2,
    createURL (mkObject "mybucket" "a b") = (Some u1, None)
    /\ createURL (mkObject "mybucket" "a+b") = (Some u2, None)
    /\ url.URL_String u1 <> url.URL_String u2.
Proof.
  destruct (createURL (mkObject "mybucket" "a b")) as [[u1|] [e1|]] eqn:E1;
    try (vm_compute in E1; discriminate E1).
  destruct (createURL (mkObject "mybucket" "a+b")) as [[u2|] [e2|]] eqn:E2;
    try (vm_compute in E2; discriminate E2).
  exists u1, u2. split; [reflexivity|]. split; [reflexivity|].
  apply (createURL_injective (mkObject "mybucket" "a b")
           (mkObject "mybucket" "a+b") u1 u2 E1 E2).
  discriminate.
Defined.

Lemma list_signs_path_without_query_witness :
  exists hreq sig,
    requests
      (trace
         (snd (list clock_2019 (respond 200 "200 OK" []) ListBucketResult_
                 zero_ListBucketResult Unmarshal_name auth_AKID
                 (mkListRequest "mybucket" 50 "" "logs/") (mkWorld 0 []))))
    = [hreq]
    /\ url.URL_String (http.URL hreq)
       = "https://s3.amazonaws.com/" +:+ "mybucket" +:+ "/?"
           +:+ url.Values_Encode
                 (list_query (mkListRequest "mybucket" 50 "" "logs/"))
    /\ sign auth_AKID
         ("GET" +:+ N +:+ N +:+ N +:+ format (clock_2019 0) +:+ N
            +:+ "/" +:+ "mybucket" +:+ "/") = (sig, None)
    /\ http.Header hreq !! "Authorization"
       = Some ["AWS " +:+ AccessKey auth_AKID +:+ ":" +:+ sig].
Proof.
  apply (list_signs_path_without_query clock_2019 (respond 200 "200 OK" [])
           ListBucketResult_ zero_ListBucketResult Unmarshal_name auth_AKID
           (mkListRequest "mybucket" 50 "" "logs/") 0).
  - discriminate.
  - reflexivity.
Defined.

Lemma list_unparsable_bucket_witness :
  list clock_2019 (respond 200 "200 OK" []) ListBucketResult_
    zero_ListBucketResult Unmarshal_name auth_AKID list_newline_bucket
    (mkWorld 0 [])
  = (Panic "invalid memory address or nil pointer dereference",
     mkWorld 1 [EvNow]).
Proof.
  apply (list_unparsable_bucket clock_2019 (respond 200 "200 OK" [])
           ListBucketResult_ zero_ListBucketResult Unmarshal_name auth_AKID
           list_newline_bucket (mkWorld 0 [])).
  - vm_compute. reflexivity.
  - vm_compute. reflexivity.
Defined.

Lemma put_declared_length_witness :
  exists hreq,
    In hreq
      (requests
         (trace
            (snd (put clock_2019 (respond 200 "200 OK" []) no_types
                    auth_AKID put_wrong_length (mkWorld 0 [])))))
    /\ http.Body hreq = http.ReaderBody [1; 2; 3]
    /\ http.ContentLength hreq = 65.
Proof.
  destruct (requests
              (trace
                 (snd (put clock_2019 (respond 200 "200 OK" []) no_types
                         auth_AKID put_wrong_length (mkWorld 0 [])))))
    as [|h l] eqn:E; [vm_compute in E; discriminate E|].
  destruct (proj2 (put_declared_length clock_2019 (respond 200 "200 OK" [])
                     no_types auth_AKID 0 h) put_wrong_length)
    as (reader & Hr & Hb & Hc).
  { rewrite E. left. reflexivity. }
  injection Hr as <-.
  exists h. split; [left; reflexivity|]. split; [exact Hb | exact Hc].
Defined.

End s3.
